(** * pdf_generator.py: record lookup, document composition, font fallback

    A shallow embedding of the [PDFGenerator] class of [src/pdf_generator.py]
    and the properties of its record locator ([get_invoice_ids],
    [get_invoice_data]), its composer and renderer ([generate_pdf]) and its
    font resolver ([setup_fonts]).

    Python dictionaries are finite maps ([gmap string _]); a raised exception
    is the [Raise] outcome of [result].  What the libraries under the code do
    (the [Paragraph] constructor and [doc.build] of the layout library, the
    text Python prints for a float, the platform's fonts and viewer) is a
    parameter wherever the code's behaviour depends on it. *)

From Stdlib Require Import ZArith String Ascii List DecimalString.
From stdpp Require Import base option list gmap strings fin_maps.
Import ListNotations.
Local Open Scope Z_scope.
Local Open Scope string_scope.

(** ** Python values and outcomes *)

(** The exceptions the modelled code can meet. *)
Inductive exn : Type :=
| KeyError (key : string)
| IndexError
| OSError (what : string)
| LayoutError (what : string)
| AttributeError (what : string)
| ValueError (what : string).

(** Outcome of a call: a returned value or a raised exception. *)
Inductive result (A : Type) : Type :=
| Ok (a : A)
| Raise (e : exn).
Arguments Ok {A} a.
Arguments Raise {A} e.

#[global] Instance result_ret : MRet result := fun A a => Ok a.

#[global] Instance result_bind : MBind result := fun A B k r =>
  match r with
  | Ok a => k a
  | Raise e => Raise e
  end.

(** [try: body except: handler] with a bare [except]. *)
Definition try_except {A} (body : result A) (handler : result A) : result A :=
  match body with
  | Ok a => Ok a
  | Raise _ => handler
  end.

(** Scalar cell values of a parsed CSV or JSON file.  [VNaN] is the missing
    cell of a data frame.  A float other than NaN is given by the text Python
    prints for it, [VFloat "7.0"] for [7.0]. *)
Inductive value : Type :=
| VStr (s : string)
| VInt (z : Z)
| VBool (b : bool)
| VNone
| VNaN
| VFloat (repr : string).

(** [str(v)], which is also [format(v, '')] inside an f-string and the
    element-wise result of [Series.astype(str)]. *)
Definition py_str (v : value) : string :=
  match v with
  | VStr s => s
  | VInt z => NilZero.string_of_int (Z.to_int z)
  | VBool true => "True"
  | VBool false => "False"
  | VNone => "None"
  | VNaN => "nan"
  | VFloat repr => repr
  end.

(** A record: a [dict] from field names to scalars.  The locator and the
    composer read nothing below the top level of a record. *)
Abbreviation record := (gmap string value).

(** [d.get(k, default)]. *)
Definition dict_get (d : record) (k : string) (dflt : value) : value :=
  match d !! k with
  | Some v => v
  | None => dflt
  end.

Section Generator.

(** ** Data sources *)

(** A [pd.DataFrame]: column labels and positional rows.  A cell missing from
    a short row reads as [VNaN], as the CSV parser pads it.  A label names its
    first column; [read_csv] renames repeated labels, so they are distinct in
    a frame it returns. *)
Record DataFrame : Type := mkFrame {
  columns : list string;
  rows : list (list value)
}.

Definition cell (r : list value) (i : nat) : value := nth i r VNaN.

Fixpoint col_index (name : string) (cols : list string) : option nat :=
  match cols with
  | [] => None
  | c :: cs => if String.eqb c name then Some 0%nat
               else option_map S (col_index name cs)
  end.

(** ['name' in data.columns]. *)
Definition has_column (df : DataFrame) (name : string) : bool :=
  match col_index name (columns df) with
  | Some _ => true
  | None => false
  end.

(** [data[name].astype(str)]: [KeyError] when the column is missing. *)
Definition column_as_str (df : DataFrame) (name : string)
  : result (list string) :=
  match col_index name (columns df) with
  | Some i => Ok (map (fun r => py_str (cell r i)) (rows df))
  | None => Raise (KeyError name)
  end.

Fixpoint row_dict_from (i : nat) (cols : list string) (r : list value)
  : record :=
  match cols with
  | [] => ∅
  | c :: cs => <[c := cell r i]> (row_dict_from (S i) cs r)
  end.

(** [Series.to_dict()]: the labels with the cells of the series. *)
Definition row_to_dict (cols : list string) (r : list value) : record :=
  row_dict_from 0 cols r.

(** The dtypes [read_csv] gives a column. *)
Inductive dtype : Type := int64 | float64 | bool_ | object.

Definition is_int (v : value) : bool :=
  match v with VInt _ => true | _ => false end.

Definition is_float (v : value) : bool :=
  match v with VFloat _ | VNaN => true | _ => false end.

Definition is_bool (v : value) : bool :=
  match v with VBool _ => true | _ => false end.

(** The dtype of a column, read off its cells as [read_csv] infers it: whole
    numbers only, floats and missing cells only, booleans only, and [object]
    for text and for everything mixed. *)
Definition infer_dtype (cells : list value) : dtype :=
  match cells with
  | [] => object
  | _ =>
      if forallb is_int cells then int64
      else if forallb is_float cells then float64
      else if forallb is_bool cells then bool_
      else object
  end.

Definition frame_dtypes (df : DataFrame) : list dtype :=
  map (fun j => infer_dtype (map (fun r => cell r j) (rows df)))
      (seq 0 (length (columns df))).

(** The dtype two columns share in one series: whole numbers and floats meet
    in [float64]; booleans do not mix with numbers, and anything else meets
    in [object]. *)
Definition join_dtype (a b : dtype) : dtype :=
  match a, b with
  | int64, int64 => int64
  | float64, float64 => float64
  | bool_, bool_ => bool_
  | int64, float64 | float64, int64 => float64
  | _, _ => object
  end.

Definition common_dtype (ds : list dtype) : dtype :=
  match ds with
  | [] => object
  | d :: ds' => fold_left join_dtype ds' d
  end.

(** The text Python prints for [float(z)]; a parameter of the model. *)
Variable float_repr : Z -> string.

(** A cell of a row taken out as a series of dtype [target]: in a [float64]
    series a whole number becomes the float of the same value. *)
Definition cast (target : dtype) (v : value) : value :=
  match target, v with
  | float64, VInt z => VFloat (float_repr z)
  | _, _ => v
  end.

(** [row.iloc[0]]: the row as one series, of the dtype its columns share.  A
    row of whole numbers and floats only comes out as floats; a row with a
    text column comes out as it is. *)
Definition iloc_row (df : DataFrame) (r : list value) : list value :=
  map (cast (common_dtype (frame_dtypes df))) r.

(** What [read_csv_file] / [read_json_file] hand to the locator: a data
    frame, a JSON object whose members are record sequences, a bare JSON
    array of records, or any other JSON value.  These are the shapes of the
    data model; a JSON member or element that is no record ([{"invoices":
    [1]}], [{"invoices": null}], [[1]]), on which [.get] or the iteration
    raises, is outside this type. *)
Inductive source : Type :=
| Frame (df : DataFrame)
| Dict (d : gmap string (list record))
| Seq (l : list record)
| Other (v : value).

(** ** Record locator *)

(** [inv.get('id', inv.get('invoice_id', ''))]. *)
Definition resolved_id (inv : record) : value :=
  dict_get inv "id" (dict_get inv "invoice_id" (VStr "")).

(** [isinstance(data, pd.DataFrame)], [isinstance(data, dict)] and
    [isinstance(data, list)], each with the value seen at that type. *)
Definition as_frame (data : source) : option DataFrame :=
  match data with Frame df => Some df | _ => None end.

Definition as_dict (data : source) : option (gmap string (list record)) :=
  match data with Dict d => Some d | _ => None end.

Definition as_list (data : source) : option (list record) :=
  match data with Seq l => Some l | _ => None end.

(** [get_invoice_ids], lines 91-103.  The [elif isinstance(data, list)] of
    line 101 is indented under [elif isinstance(data, dict)]: it is the
    alternative of [if 'invoices' in data], and is tested only when [data] is
    a [dict]. *)
Definition get_invoice_ids (data : source) : result (list string) :=
  match as_frame data with
  | Some df =>
      if has_column df "invoice_id" then column_as_str df "invoice_id"
      else if has_column df "id" then column_as_str df "id"
      else Ok []
  | None =>
      match as_dict data with
      | Some d =>
          match d !! "invoices" with
          | Some invs => Ok (map (fun inv => py_str (resolved_id inv)) invs)
          | None =>
              match as_list data with
              | Some items =>
                  Ok (map (fun item => py_str (resolved_id item)) items)
              | None => Ok []
              end
          end
      | None => Ok []
      end
  end.

(** The [for inv in ...: if str(...) == invoice_id: return inv] scan. *)
Fixpoint scan_records (l : list record) (invoice_id : string)
  : option record :=
  match l with
  | [] => None
  | inv :: rest =>
      if String.eqb (py_str (resolved_id inv)) invoice_id then Some inv
      else scan_records rest invoice_id
  end.

(** [data[mask]]: the rows whose mask entry is true. *)
Fixpoint select_rows (rs : list (list value)) (ids : list string)
  (invoice_id : string) : list (list value) :=
  match rs, ids with
  | r :: rs', s :: ids' =>
      if String.eqb s invoice_id then r :: select_rows rs' ids' invoice_id
      else select_rows rs' ids' invoice_id
  | _, _ => []
  end.

(** [get_invoice_data], lines 105-125.  The three [isinstance] tests are
    siblings here, and the empty [dict] of line 125 is the "not found"
    value. *)
Definition get_invoice_data (data : source) (invoice_id : string)
  : result record :=
  match as_frame data with
  | Some df =>
      ids ← (if has_column df "invoice_id"
             then column_as_str df "invoice_id"
             else column_as_str df "id");
      match select_rows (rows df) ids invoice_id with
      | r :: _ => Ok (row_to_dict (columns df) (iloc_row df r))
      | [] => Ok ∅
      end
  | None =>
      match as_dict data with
      | Some d =>
          match d !! "invoices" with
          | Some invs =>
              match scan_records invs invoice_id with
              | Some inv => Ok inv
              | None => Ok ∅
              end
          | None => Ok ∅
          end
      | None =>
          match as_list data with
          | Some items =>
              match scan_records items invoice_id with
              | Some item => Ok item
              | None => Ok ∅
              end
          | None => Ok ∅
          end
      end
  end.

(** ** Document composer *)

Inductive color : Type := darkblue | darkred.

(** A [ParagraphStyle(name, parent=..., fontName=..., ...)]; the parent is
    named by its key in the sample style sheet. *)
Record ParagraphStyle : Type := mkStyle {
  style_name : string;
  parent : string;
  fontName : string;
  fontSize : Z;
  spaceAfter : Z;
  alignment : option Z;
  textColor : option color
}.

(** One command of a [TableStyle], applied to the cell range
    [(0, 0) .. (-1, -1)]. *)
Inductive TableCommand : Type :=
| ALIGN (first last : Z * Z) (how : string)
| FONTNAME (first last : Z * Z) (font : string)
| FONTSIZE (first last : Z * Z) (size : Z)
| BOTTOMPADDING (first last : Z * Z) (pad : Z).

(** The flowables [generate_pdf] appends to its story. *)
Inductive Flowable : Type :=
| Paragraph (text : value) (style : ParagraphStyle)
| Spacer (width height : Z)
| Table (data : list (list value)) (colWidths : list Z)
        (style : list TableCommand).

Definition title_style (font_name : string) : ParagraphStyle :=
  mkStyle "CustomTitle" "Heading1" font_name 24 30 (Some 1) (Some darkblue).

Definition heading_style (font_name : string) : ParagraphStyle :=
  mkStyle "CustomHeading" "Heading2" font_name 16 12 None (Some darkblue).

Definition normal_style (font_name : string) : ParagraphStyle :=
  mkStyle "CustomNormal" "Normal" font_name 12 6 None None.

Definition amount_style (font_name : string) : ParagraphStyle :=
  mkStyle "AmountStyle" "Heading2" font_name 20 20 (Some 1) (Some darkred).

Definition NA : value := VStr "N/A".

(** The [info_data] rows of lines 172-176. *)
Definition info_data (data : record) : list (list value) :=
  [ [VStr "Клиент:"; dict_get data "customer_name" NA];
    [VStr "Дата:"; dict_get data "date" NA];
    [VStr "Номер счета:"; dict_get data "invoice_id" NA] ].

Definition info_table (font_name : string) (data : record) : Flowable :=
  Table (info_data data) [100; 200]
        [ ALIGN (0, 0) (-1, -1) "LEFT";
          FONTNAME (0, 0) (-1, -1) font_name;
          FONTSIZE (0, 0) (-1, -1) 12;
          BOTTOMPADDING (0, 0) (-1, -1) 6 ].

(** The story built by lines 164-208, one entry per [story.append], as it
    stands when every constructor has returned; [compose] below runs the
    constructors. *)
Definition story (font_name : string) (data : record) : list Flowable :=
  [ Paragraph (VStr "СЧЕТ-ФАКТУРА") (title_style font_name);
    Paragraph (VStr ("№ " ++ py_str (dict_get data "invoice_id" NA)))
              (normal_style font_name);
    Spacer 1 20;
    info_table font_name data;
    Spacer 1 20;
    Paragraph (VStr ("Сумма: " ++ py_str (dict_get data "amount" NA) ++ " ₽"))
              (amount_style font_name);
    Paragraph (VStr "Описание услуг:") (heading_style font_name);
    Paragraph (dict_get data "description" NA) (normal_style font_name);
    Spacer 1 30;
    Paragraph (VStr "Спасибо за ваш заказ!") (normal_style font_name);
    Paragraph (VStr ("Дата создания: " ++ py_str (dict_get data "date" NA)))
              (normal_style font_name) ].

(** The [Paragraph] constructor of the layout library parses its text when
    it is called, and raises when it cannot: on a text that is no string (the
    NaN of an empty cell, a number) or on markup it does not accept.  Whether
    it returns for a text and a style is a parameter of the model. *)
Variable paragraph_check : value -> ParagraphStyle -> result unit.

(** [Paragraph(text, style)]. *)
Definition new_paragraph (text : value) (style : ParagraphStyle)
  : result Flowable :=
  paragraph_check text style;; Ok (Paragraph text style).

(** Lines 164-208 as they run: the seven [Paragraph(...)] calls in source
    order, the first that raises ending the composition; [Spacer] and [Table]
    take their arguments as they are. *)
Definition compose (font_name : string) (data : record)
  : result (list Flowable) :=
  title ← new_paragraph (VStr "СЧЕТ-ФАКТУРА") (title_style font_name);
  number ← new_paragraph
             (VStr ("№ " ++ py_str (dict_get data "invoice_id" NA)))
             (normal_style font_name);
  amount ← new_paragraph
             (VStr ("Сумма: " ++ py_str (dict_get data "amount" NA) ++ " ₽"))
             (amount_style font_name);
  heading ← new_paragraph (VStr "Описание услуг:") (heading_style font_name);
  description ← new_paragraph (dict_get data "description" NA)
                  (normal_style font_name);
  thanks ← new_paragraph (VStr "Спасибо за ваш заказ!")
             (normal_style font_name);
  created ← new_paragraph
              (VStr ("Дата создания: " ++ py_str (dict_get data "date" NA)))
              (normal_style font_name);
  Ok [ title; number; Spacer 1 20; info_table font_name data; Spacer 1 20;
       amount; heading; description; Spacer 1 30; thanks; created ].

(** The text and style of each paragraph of a story, in order. *)
Definition paragraphs_of (blocks : list Flowable)
  : list (value * ParagraphStyle) :=
  omap (fun f => match f with
                 | Paragraph text style => Some (text, style)
                 | _ => None
                 end) blocks.

(** The constructor returns for this text and style. *)
Definition accepted (p : value * ParagraphStyle) : Prop :=
  paragraph_check p.1 p.2 = Ok tt.

(** The layout-block variants of the specification's data model, read off a
    flowable: the paragraph in the title style is the Title block, the one in
    the amount style the EmphasizedLine block, a table the KeyValueTable. *)
Inductive BlockKind : Type :=
| Title | KeyValueTable | EmphasizedLine | ParagraphBlock | SpacerBlock.

#[global] Instance BlockKind_eq_dec : EqDecision BlockKind.
Proof. solve_decision. Defined.




(** ** Document renderer *)

(** What the process can observe and change: the files on disk (path to
    content) and the lines printed so far. *)
Record World : Type := mkWorld {
  files : gmap string string;
  stdout : list string
}.

(** A computation over the world that returns or raises. *)
Definition M (A : Type) : Type := World -> World * result A.

#[global] Instance M_ret : MRet M := fun A a w => (w, Ok a).

#[global] Instance M_bind : MBind M := fun A B k m w =>
  match m w with
  | (w', Ok a) => k a w'
  | (w', Raise e) => (w', Raise e)
  end.

Definition print (line : string) : M unit :=
  fun w => (mkWorld (files w) (stdout w ++ [line]), Ok tt).

Definition raise {A} (e : exn) : M A := fun w => (w, Raise e).

Definition lift {A} (r : result A) : M A := fun w => (w, r).

(** [try: body except Exception as e: handler e]. *)
Definition try_catch {A} (body : M A) (handler : exn -> M A) : M A :=
  fun w =>
    match body w with
    | (w', Ok a) => (w', Ok a)
    | (w', Raise e) => handler e w'
    end.

(** [str(e)] of an exception. *)
Definition exn_str (e : exn) : string :=
  match e with
  | KeyError k => "'" ++ k ++ "'"
  | IndexError => "list index out of range"
  | OSError what => what
  | LayoutError what => what
  | AttributeError what => what
  | ValueError what => what
  end.

(** [SimpleDocTemplate(str(output_path), pagesize=A4, rightMargin=20*mm, ...)]:
    the margins are kept in millimetres. *)
Record DocTemplate : Type := mkDoc {
  filename : string;
  pagesize : string;
  rightMargin : Z;
  leftMargin : Z;
  topMargin : Z;
  bottomMargin : Z
}.

Definition SimpleDocTemplate (output_path : string) : DocTemplate :=
  mkDoc output_path "A4" 20 20 20 20.

(** The layout engine behind [doc.build(story)] is a library outside the
    repository: whatever it does to the files, and whether it returns or
    raises, is a parameter of the model. *)
Definition Engine : Type :=
  DocTemplate -> list Flowable -> gmap string string
  -> gmap string string * result unit.

Definition doc_build (build : Engine) (doc : DocTemplate)
  (blocks : list Flowable) : M unit :=
  fun w =>
    let '(fs, r) := build doc blocks (files w) in
    (mkWorld fs (stdout w), r).

(** The error line printed by the handler of line 215. *)
Definition msg_render_error (e : exn) : string :=
  "❌ Ошибка при создании PDF: " ++ exn_str e.

(** [generate_pdf], lines 127-216: the template, the composition and the
    build all run inside the [try]. *)
Definition generate_pdf (build : Engine) (font_name : string)
  (data : record) (output_path : string) : M unit :=
  try_catch
    (let doc := SimpleDocTemplate output_path in
     blocks ← lift (compose font_name data);
     doc_build build doc blocks;;
     print ("✅ PDF успешно создан: " ++ output_path))
    (fun e =>
       print (msg_render_error e);;
       raise e).

(** ** Font resolver *)

(** What [setup_fonts] asks of the platform: [platform.system()],
    [os.path.exists] and [pdfmetrics.registerFont(TTFont('CustomFont', p))],
    the first and the last of which may raise. *)
Record Platform : Type := mkPlatform {
  system : result string;
  path_exists : string -> bool;
  registerFont : string -> result unit
}.

(** The generator's font state: [self.font_name] and the file registered
    under the name ['CustomFont'], if any. *)
Record Fonts : Type := mkFonts {
  font_name : string;
  registered : option string
}.

Definition font_paths (sys : string) : list string :=
  if String.eqb sys "Windows" then
    [ "C:/Windows/Fonts/arial.ttf";
      "C:/Windows/Fonts/calibri.ttf";
      "C:/Windows/Fonts/tahoma.ttf" ]
  else
    [ "/System/Library/Fonts/Arial.ttf";
      "/usr/share/fonts/truetype/dejavu/DejaVuSans.ttf" ].

(** The loop of lines 53-63 with its inner [try ... except: continue]. *)
Fixpoint try_fonts (env : Platform) (paths : list string) : result Fonts :=
  match paths with
  | [] => Ok (mkFonts "Helvetica" None)
  | font_path :: rest =>
      if path_exists env font_path then
        try_except
          (registerFont env font_path;;
           Ok (mkFonts "CustomFont" (Some font_path)))
          (try_fonts env rest)
      else try_fonts env rest
  end.

(** [setup_fonts], lines 34-65. *)
Definition setup_fonts (env : Platform) : result Fonts :=
  try_except
    (sys ← system env;
     try_fonts env (font_paths sys))
    (Ok (mkFonts "Helvetica" None)).

(** A candidate registers when its file exists and [registerFont] returns. *)
Definition registers (env : Platform) (font_path : string) : bool :=
  path_exists env font_path &&
  match registerFont env font_path with
  | Ok _ => true
  | Raise _ => false
  end.

(** ** The driver's lookup-and-render step *)

(** [open_pdf], lines 218-229, hands the path to the platform's viewer and
    swallows every failure; [viewer] is how the platform's call ended. *)
Definition open_pdf (viewer : result unit) (pdf_path : string) : M unit :=
  match viewer with
  | Ok _ => print "📄 PDF открыт в системной программе"
  | Raise e =>
      print ("⚠️ Не удалось открыть PDF автоматически: " ++ exn_str e)
  end.

(** The line feed of the ["\n"] escapes. *)
Definition nl : string := String (ascii_of_nat 10) EmptyString.

(** The lines [run] prints around the lookup. *)
Definition msg_selected (selected_invoice_id : string) : string :=
  nl ++ "📋 Выбран инвойс: " ++ selected_invoice_id.

Definition msg_not_found : string :=
  "❌ Данные для выбранного инвойса не найдены".

(** [invoice_ids[invoice_choice]]. *)
Definition list_item (ids : list string) (i : nat) : result string :=
  match ids !! i with
  | Some s => Ok s
  | None => Raise IndexError
  end.

(** Lines 287-317 of [run]: from the loaded [data] and the menu choice to the
    rendered file.  [not invoice_ids] and [not invoice_data] test for the
    empty list and the empty [dict].  The menu is the interactive
    collaborator: its answer is [invoice_choice], and the lines it prints
    itself are not recorded. *)
Definition run_invoice (build : Engine) (viewer : result unit)
  (font : string) (data : source) (invoice_choice : nat) : M unit :=
  invoice_ids ← lift (get_invoice_ids data);
  if bool_decide (invoice_ids = []) then
    print "❌ В файле данных не найдено invoice_id"
  else
    selected_invoice_id ← lift (list_item invoice_ids invoice_choice);
    print (msg_selected selected_invoice_id);;
    invoice_data ← lift (get_invoice_data data selected_invoice_id);
    if bool_decide (invoice_data = ∅) then
      print msg_not_found
    else
      let pdf_path := "output/invoice_" ++ selected_invoice_id ++ ".pdf" in
      print "📄 Создаем PDF...";;
      generate_pdf build font invoice_data pdf_path;;
      print "🚀 Открываем PDF...";;
      open_pdf viewer pdf_path;;
      print (nl ++ "✅ Готово! PDF сохранен: " ++ pdf_path).

(** ** Scenarios and derived notions *)

(** Scenario A of the specification: one tabular row. *)
Definition scenario_A : DataFrame :=
  mkFrame ["invoice_id"; "customer_name"; "date"; "amount"; "description"]
          [[VStr "INV-1"; VStr "Acme"; VStr "2024-01-01"; VStr "500";
            VStr "Consulting"]].

Definition record_A : record :=
  <["invoice_id" := VStr "INV-1"]>
    (<["customer_name" := VStr "Acme"]>
      (<["date" := VStr "2024-01-01"]>
        (<["amount" := VStr "500"]>
          (<["description" := VStr "Consulting"]> ∅)))).

(** A hierarchical document [{"invoices": [...]}]. *)
Definition invoices_doc (invs : list record) : source :=
  Dict {[ "invoices" := invs ]}.

(** The identifier column both tabular branches settle on, when there is
    one. *)
Definition id_column (df : DataFrame) : option string :=
  if has_column df "invoice_id" then Some "invoice_id"
  else if has_column df "id" then Some "id"
  else None.

(** [r] is what the source holds under the identifier [s]: the mapping of a
    row, taken out as a series, whose cell in the identifier column reads
    [s]; or a record of the document or list whose resolved identifier reads
    [s]. *)
Definition found_under (data : source) (s : string) (r : record) : Prop :=
  match data with
  | Frame df =>
      exists c i row,
        id_column df = Some c /\ col_index c (columns df) = Some i /\
        row ∈ rows df /\ py_str (cell row i) = s /\
        r = row_to_dict (columns df) (iloc_row df row)
  | Dict d =>
      exists invs, d !! "invoices" = Some invs /\
                   r ∈ invs /\ py_str (resolved_id r) = s
  | Seq l => r ∈ l /\ py_str (resolved_id r) = s
  | Other _ => False
  end.

(** The paragraphs [compose] has to construct for a record. *)
Definition paragraph_texts (font : string) (data : record)
  : list (value * ParagraphStyle) :=
  paragraphs_of (story font data).

(** A [Paragraph] constructor that takes every string and raises
    [AttributeError] on any other text. *)
Definition strings_only (text : value) (style : ParagraphStyle)
  : result unit :=
  match text with
  | VStr _ => Ok tt
  | _ => Raise (AttributeError "text has no attribute 'split'")
  end.

(** The text of [float(z)] for a whole number of at most 2^53 in size. *)
Definition whole_float_repr (z : Z) : string := py_str (VInt z) ++ ".0".

(** A frame of numbers only: whole identifiers and float amounts. *)
Definition numeric_frame : DataFrame :=
  mkFrame ["invoice_id"; "amount"]
          [[VInt 7; VFloat "1.5"]; [VInt 8; VFloat "20.0"]].


(** A frame whose one row has an empty description cell, and the record of
    that row. *)
Definition empty_description_frame : DataFrame :=
  mkFrame ["invoice_id"; "description"] [[VStr "INV-3"; VNaN]].

Definition no_description_cell : record :=
  <["invoice_id" := VStr "INV-3"]> {[ "description" := VNaN ]}.

(** A frame with neither identifier column. *)
Definition names_only : DataFrame := mkFrame ["name"] [[VStr "Bob"]].

(** A record without ["amount"] and ["description"]. *)
Definition partial_record : record :=
  <["invoice_id" := VStr "INV-2"]>
    (<["customer_name" := VStr "Acme"]> {[ "date" := VStr "2024-01-01" ]}).

(** An engine that opens the destination for writing, which truncates it, and
    then fails before any page is written. *)
Definition truncating_engine : Engine :=
  fun doc _ fs =>
    (<[filename doc := ""]> fs, Raise (OSError "No space left on device")).

(** An engine that rejects the story before it opens the destination. *)
Definition rejecting_engine : Engine :=
  fun _ _ fs => (fs, Raise (LayoutError "Flowable too large")).

(** A Linux host where only DejaVu Sans is installed. *)
Definition linux_dejavu : Platform :=
  mkPlatform (Ok "Linux")
    (fun p => String.eqb p "/usr/share/fonts/truetype/dejavu/DejaVuSans.ttf")
    (fun _ => Ok tt).

(** A Windows host whose [arial.ttf] cannot be registered. *)
Definition windows_broken_arial : Platform :=
  mkPlatform (Ok "Windows") (fun _ => true)
    (fun p => if String.eqb p "C:/Windows/Fonts/arial.ttf"
              then Raise (OSError "cannot read font file") else Ok tt).

(** The font names a flowable mentions: the [fontName] of a paragraph's
    style and the fonts of a table's [FONTNAME] commands. *)
Definition block_fonts (f : Flowable) : list string :=
  match f with
  | Paragraph _ st => [fontName st]
  | Spacer _ _ => []
  | Table _ _ cmds =>
      omap (fun cmd => match cmd with
                       | FONTNAME _ _ font => Some font
                       | _ => None
                       end) cmds
  end.

(** The record fields [generate_pdf] reads. *)
Definition composed_fields : list string :=
  ["invoice_id"; "customer_name"; "date"; "amount"; "description"].

(** The line printed after a successful build, line 212. *)
Definition msg_render_ok (output_path : string) : string :=
  "✅ PDF успешно создан: " ++ output_path.

(** An engine that writes a complete file at the destination. *)
Definition writing_engine : Engine :=
  fun doc _ fs => (<[filename doc := "%PDF-1.4 complete"]> fs, Ok tt).

(** The other lines [run] prints in lines 287-317. *)
Definition msg_no_ids : string := "❌ В файле данных не найдено invoice_id".

Definition msg_creating : string := "📄 Создаем PDF...".

Definition msg_opening : string := "🚀 Открываем PDF...".

Definition msg_viewer (viewer : result unit) : string :=
  match viewer with
  | Ok _ => "📄 PDF открыт в системной программе"
  | Raise e => "⚠️ Не удалось открыть PDF автоматически: " ++ exn_str e
  end.

Definition msg_done (pdf_path : string) : string :=
  nl ++ "✅ Готово! PDF сохранен: " ++ pdf_path.

(** [self.output_dir / f"invoice_{selected_invoice_id}.pdf"], lines 306-307. *)
Definition pdf_path_of (selected_invoice_id : string) : string :=
  "output/invoice_" ++ selected_invoice_id ++ ".pdf".

(** ** The menu *)

(** What [int(input(...))] makes of one line typed at the prompt: the integer
    read, or [None] when [int] raises [ValueError]. *)
Abbreviation entry := (option Z).

(** How [show_menu] ends on a finite input: with the index it returns, or
    with [input] raising [EOFError] at the end of the input, which
    [show_menu] does not catch. *)
Inductive answer : Type :=
| Chosen (index : Z)
| EndOfInput.

(** [s * n]. *)
Fixpoint str_times (s : string) (n : nat) : string :=
  match n with
  | O => ""
  | S n' => s ++ str_times s n'
  end.

(** [str(z)] and [f"{z:2d}"] of an integer. *)
Definition decimal (z : Z) : string := NilZero.string_of_int (Z.to_int z).

Definition format_2d (z : Z) : string :=
  let d := decimal z in
  if (String.length d <? 2)%nat then " " ++ d else d.

(** The world after one more line has been written. *)
Definition put (line : string) (w : World) : World :=
  mkWorld (files w) (stdout w ++ [line]).

(** The heading and the numbered items, lines 233-238. *)
Fixpoint item_lines (i : Z) (items : list string) : list string :=
  match items with
  | [] => []
  | item :: rest => (format_2d i ++ ". " ++ item) :: item_lines (i + 1) rest
  end.

Definition menu_lines (title : string) (items : list string) : list string :=
  [ nl ++ str_times "=" 50; " " ++ title; str_times "=" 50 ]
  ++ item_lines 1 items.

(** The prompt of [input] and the two complaints, lines 242-248. *)
Definition menu_prompt (items : list string) : string :=
  nl ++ "Выберите вариант (1-" ++ decimal (Z.of_nat (length items)) ++ "): ".

Definition msg_out_of_range (items : list string) : string :=
  "❌ Введите число от 1 до " ++ decimal (Z.of_nat (length items)).

Definition msg_not_a_number : string := "❌ Введите корректное число".

(** The [while True] loop of lines 240-248 over the entries still to be
    read: each round writes the prompt and reads one entry. *)
Fixpoint ask (items : list string) (inputs : list entry) (w : World)
  : World * list entry * answer :=
  let w1 := put (menu_prompt items) w in
  match inputs with
  | [] => (w1, [], EndOfInput)
  | None :: rest => ask items rest (put msg_not_a_number w1)
  | Some choice :: rest =>
      if ((1 <=? choice) && (choice <=? Z.of_nat (length items)))%Z then
        (w1, rest, Chosen (choice - 1))
      else ask items rest (put (msg_out_of_range items) w1)
  end.

(** [show_menu], lines 231-248. *)
Definition show_menu (title : string) (items : list string)
  (inputs : list entry) (w : World) : World * list entry * answer :=
  ask items inputs (foldl (fun w' line => put line w') w
                      (menu_lines title items)).

(** An entry the loop turns down: no integer, or one outside [1..n]. *)
Definition rejected (items : list string) (e : entry) : Prop :=
  match e with
  | None => True
  | Some choice => (choice < 1 \/ Z.of_nat (length items) < choice)%Z
  end.

(** What the loop writes in the round that turns an entry down. *)
Definition rejection_lines (items : list string) (e : entry) : list string :=
  [ menu_prompt items;
    match e with
    | None => msg_not_a_number
    | Some _ => msg_out_of_range items
    end ].

(** The title of the invoice menu, line 294. *)
Definition title_invoices : string := "Доступные инвойсы".

(** * Properties *)

(** Unfolds the two locator functions and decides their [isinstance]
    tests on a source of known shape. *)
Ltac locator_cases :=
  unfold get_invoice_ids, get_invoice_data;
  cbn [as_frame as_dict as_list].

(** ** Scanning a record sequence *)

Lemma scan_records_Some l s r :
  scan_records l s = Some r -> r ∈ l /\ py_str (resolved_id r) = s.
Proof.
  induction l as [|inv rest IH]; simpl; [discriminate|].
  destruct (String.eqb_spec (py_str (resolved_id inv)) s) as [Heq|Hne].
  - intros [= <-]. split; [apply elem_of_cons; by left | done].
  - intros H. destruct (IH H) as [Hin Hid].
    split; [apply elem_of_cons; by right | done].
Qed.

Lemma scan_records_None l s :
  Forall (fun r => py_str (resolved_id r) <> s) l -> scan_records l s = None.
Proof.
  induction 1 as [|inv rest Hne _ IH]; simpl; [done|].
  by destruct (String.eqb_spec (py_str (resolved_id inv)) s).
Qed.

Lemma scan_records_first pre r post s :
  Forall (fun r' => py_str (resolved_id r') <> s) pre ->
  py_str (resolved_id r) = s ->
  scan_records (pre ++ r :: post) s = Some r.
Proof.
  intros Hpre Hid. induction Hpre as [|inv rest Hne _ IH]; simpl.
  - by rewrite Hid, String.eqb_refl.
  - by destruct (String.eqb_spec (py_str (resolved_id inv)) s).
Qed.

Lemma scan_records_listed l s :
  s ∈ map (fun inv => py_str (resolved_id inv)) l ->
  exists r, scan_records l s = Some r.
Proof.
  induction l as [|inv rest IH]; simpl.
  - intros H. by apply elem_of_nil in H.
  - intros H. destruct (String.eqb_spec (py_str (resolved_id inv)) s).
    + by eexists.
    + apply elem_of_cons in H as [->|H]; [done | by apply IH].
Qed.

Lemma resolved_id_empty : resolved_id ∅ = VStr "".
Proof. reflexivity. Qed.

(** ** Frames *)

Lemma has_column_true df name :
  has_column df name = true ->
  exists i, col_index name (columns df) = Some i.
Proof.
  unfold has_column. destruct (col_index name (columns df)); [eauto|done].
Qed.

Lemma has_column_false df name :
  has_column df name = false -> col_index name (columns df) = None.
Proof.
  unfold has_column. by destruct (col_index name (columns df)).
Qed.

Lemma row_dict_from_lookup name cols r k i :
  col_index name cols = Some i ->
  row_dict_from k cols r !! name = Some (cell r (k + i)).
Proof.
  revert k i. induction cols as [|c cs IH]; intros k i; simpl; [done|].
  destruct (String.eqb_spec c name) as [->|Hne].
  - intros [= <-]. rewrite Nat.add_0_r. apply lookup_insert_eq.
  - destruct (col_index name cs) as [j|] eqn:Hj; simpl; [|done].
    intros [= <-]. rewrite lookup_insert_ne by done.
    rewrite (IH (S k) j eq_refl). f_equal. f_equal. lia.
Qed.

Lemma row_to_dict_lookup name cols r i :
  col_index name cols = Some i ->
  row_to_dict cols r !! name = Some (cell r i).
Proof. intros H. apply (row_dict_from_lookup name cols r 0 i H). Qed.

Lemma cell_iloc_row (df : DataFrame) (r : list value) (i : nat) :
  cell (iloc_row df r) i = cast (common_dtype (frame_dtypes df)) (cell r i).
Proof.
  unfold cell, iloc_row.
  by rewrite <- (map_nth (cast (common_dtype (frame_dtypes df))) r VNaN i);
    destruct (common_dtype (frame_dtypes df)).
Qed.

Lemma select_rows_elem rs i s r :
  r ∈ select_rows rs (map (fun r' => py_str (cell r' i)) rs) s ->
  r ∈ rs /\ py_str (cell r i) = s.
Proof.
  induction rs as [|r0 rs IH]; simpl.
  - intros H. by apply elem_of_nil in H.
  - destruct (String.eqb_spec (py_str (cell r0 i)) s) as [Heq|Hne].
    + intros [->|H]%elem_of_cons.
      * split; [apply elem_of_cons; by left | done].
      * destruct (IH H). split; [apply elem_of_cons; by right | done].
    + intros H. destruct (IH H). split; [apply elem_of_cons; by right | done].
Qed.

Lemma select_rows_listed rs i s :
  s ∈ map (fun r' => py_str (cell r' i)) rs ->
  select_rows rs (map (fun r' => py_str (cell r' i)) rs) s <> [].
Proof.
  induction rs as [|r0 rs IH]; simpl.
  - intros H. by apply elem_of_nil in H.
  - intros H. destruct (String.eqb_spec (py_str (cell r0 i)) s); [done|].
    apply elem_of_cons in H as [->|H]; [done | by apply IH].
Qed.

(** ** Record locator *)

(** C1.  On a tabular source with neither an ['invoice_id'] nor an ['id']
    column, [get_invoice_ids] returns the empty list, but [get_invoice_data]
    takes the [else] of line 110 and raises [KeyError('id')] for every
    identifier instead of returning the not-found value. *)
Theorem get_invoice_data_without_id_columns (df : DataFrame) (s : string) :
  has_column df "invoice_id" = false ->
  has_column df "id" = false ->
  get_invoice_ids (Frame df) = Ok [] /\
  get_invoice_data (Frame df) s = Raise (KeyError "id").
Proof.
  intros H1 H2. locator_cases. unfold column_as_str. rewrite H1, H2.
  by rewrite (has_column_false _ _ H2).
Qed.

(** C2.  For a bare sequence of records [get_invoice_ids] returns the empty
    list, whatever the records hold: the list branch of line 101 is nested
    under [isinstance(data, dict)] and is never taken. *)
Theorem get_invoice_ids_bare_sequence (l : list record) :
  get_invoice_ids (Seq l) = Ok [].
Proof. locator_cases. reflexivity. Qed.

(** C3.  The two operations dispatch differently on a bare sequence: for
    [[{"id": "a"}]] the listing is empty while the lookup of ["a"] returns
    the record, which is not the not-found value. *)
Theorem dispatch_differs_on_bare_sequence :
  let r : record := {[ "id" := VStr "a" ]} in
  get_invoice_ids (Seq [r]) = Ok [] /\
  get_invoice_data (Seq [r]) "a" = Ok r /\
  r <> ∅.
Proof.
  intros r. split; [reflexivity|]. split; [reflexivity|].
  apply insert_non_empty.
Qed.

(** C4.  A hierarchical record that carries both fields is resolved by its
    ['id'] field, not by ['invoice_id']: it is listed under ['id'], found
    under ['id'], and not found under its ['invoice_id'] when the two
    differ. *)
Theorem resolved_id_takes_id_first (inv : record) (a b : value) :
  inv !! "id" = Some a ->
  inv !! "invoice_id" = Some b ->
  py_str b <> py_str a ->
  resolved_id inv = a /\
  get_invoice_ids (invoices_doc [inv]) = Ok [py_str a] /\
  get_invoice_data (invoices_doc [inv]) (py_str a) = Ok inv /\
  get_invoice_data (invoices_doc [inv]) (py_str b) = Ok ∅.
Proof.
  intros Ha Hb Hne.
  assert (Hid : resolved_id inv = a).
  { unfold resolved_id, dict_get. by rewrite Ha. }
  unfold invoices_doc. locator_cases. rewrite lookup_singleton_eq. simpl. rewrite Hid, String.eqb_refl.
  repeat split; try done.
  by destruct (String.eqb_spec (py_str a) (py_str b)).
Qed.

(** ** Listing and lookup *)

Lemma id_column_index (df : DataFrame) (c : string) :
  id_column df = Some c -> exists i, col_index c (columns df) = Some i.
Proof.
  unfold id_column.
  destruct (has_column df "invoice_id") eqn:H1.
  - intros [= <-]. by apply has_column_true.
  - destruct (has_column df "id") eqn:H2; [|done].
    intros [= <-]. by apply has_column_true.
Qed.

Lemma get_invoice_ids_frame (df : DataFrame) :
  get_invoice_ids (Frame df) =
    match id_column df with
    | Some c => column_as_str df c
    | None => Ok []
    end.
Proof.
  unfold get_invoice_ids, id_column. cbn [as_frame].
  destruct (has_column df "invoice_id"); [done|].
  by destruct (has_column df "id").
Qed.

Lemma get_invoice_data_frame (df : DataFrame) (c : string) (s : string) :
  id_column df = Some c ->
  get_invoice_data (Frame df) s =
    ids ← column_as_str df c;
    match select_rows (rows df) ids s with
    | r :: _ => Ok (row_to_dict (columns df) (iloc_row df r))
    | [] => Ok ∅
    end.
Proof.
  unfold get_invoice_data, id_column. cbn [as_frame].
  destruct (has_column df "invoice_id"); [by intros [= <-]|].
  destruct (has_column df "id"); [by intros [= <-] | done].
Qed.

Lemma frame_lookup_listed (df : DataFrame) (c : string) (i : nat) (s : string) :
  col_index c (columns df) = Some i ->
  s ∈ map (fun r => py_str (cell r i)) (rows df) ->
  exists row sel,
    select_rows (rows df) (map (fun r => py_str (cell r i)) (rows df)) s
      = row :: sel /\
    row ∈ rows df /\
    row_to_dict (columns df) (iloc_row df row) !! c
      = Some (cell (iloc_row df row) i) /\
    py_str (cell row i) = s.
Proof.
  intros Hc Hs. pose proof (select_rows_listed _ _ _ Hs) as Hne.
  destruct (select_rows _ _ s) as [|row sel] eqn:Hsel; [done|].
  exists row, sel.
  assert (Hrow : row ∈ select_rows (rows df)
    (map (fun r => py_str (cell r i)) (rows df)) s).
  { rewrite Hsel. apply elem_of_cons. by left. }
  apply select_rows_elem in Hrow as [Hin Hid].
  repeat split; try done. by apply row_to_dict_lookup.
Qed.

(** C9, as the code has it.  Every identifier listed by [get_invoice_ids] is
    looked up by [get_invoice_data] without raising, and the result is what
    the source holds under that identifier: the mapping of a row whose
    identifier cell reads as the identifier, the row taken out as pandas
    takes it out, or a hierarchical record whose resolved identifier reads as
    the identifier.  It differs from the not-found value unless the record
    found is itself an empty mapping of a hierarchical source, in which case
    the identifier is the empty string. *)
Theorem listed_identifier_is_found (data : source) (ids : list string)
  (s : string) :
  get_invoice_ids data = Ok ids ->
  s ∈ ids ->
  exists r,
    get_invoice_data data s = Ok r /\
    found_under data s r /\
    (r <> ∅ \/ (s = "" /\ exists d, data = Dict d)).
Proof.
  destruct data as [df|d|l|v].
  - (* a frame: both functions read the same identifier column *)
    rewrite get_invoice_ids_frame. cbn [found_under].
    destruct (id_column df) as [c|] eqn:Hcol.
    + destruct (id_column_index df c Hcol) as [i Hi].
      rewrite (get_invoice_data_frame df c s Hcol).
      unfold column_as_str. rewrite Hi. intros [= <-] Hs.
      destruct (frame_lookup_listed df c i s Hi Hs)
        as (row & sel & Hsel & Hin & Hlk & Hid).
      exists (row_to_dict (columns df) (iloc_row df row)). simpl.
      rewrite Hsel. split; [done|]. split.
      { by exists c, i, row. }
      left. intros Hempty. rewrite Hempty in Hlk.
      by rewrite lookup_empty in Hlk.
    + intros [= <-] Hs. by apply elem_of_nil in Hs.
  - (* a document: the scan reaches the first record with that identifier *)
    locator_cases. cbn [found_under].
    destruct (d !! "invoices") as [invs|]; simpl.
    + intros [= <-] Hs. destruct (scan_records_listed _ _ Hs) as [r Hr].
      rewrite Hr. destruct (scan_records_Some _ _ _ Hr) as [Hin Hid].
      exists r. split; [done|]. split; [by exists invs|].
      destruct (decide (r = ∅)) as [->|Hne]; [|by left].
      right. split; [|by eexists]. by rewrite <- Hid.
    + intros [= <-] Hs. by apply elem_of_nil in Hs.
  - locator_cases. intros [= <-] Hs. by apply elem_of_nil in Hs.
  - locator_cases. intros [= <-] Hs. by apply elem_of_nil in Hs.
Qed.

(** ** The not-found value *)



(** ** Document composer *)


Lemma story_length (font : string) (data : record) :
  length (story font data) = 11%nat.
Proof. reflexivity. Qed.

(** Runs the seven constructor calls of [compose], one case per outcome. *)
Ltac compose_cases :=
  unfold compose, new_paragraph;
  repeat match goal with
         | |- context [paragraph_check ?t ?st] =>
             let H := fresh "Hcheck" in
             destruct (paragraph_check t st) as [[]|?] eqn:H; simpl
         end.

Lemma compose_accepted (font : string) (data : record) :
  Forall accepted (paragraph_texts font data) ->
  compose font data = Ok (story font data).
Proof.
  unfold paragraph_texts, paragraphs_of, story, accepted. simpl.
  rewrite !Forall_cons. simpl.
  intros (H1 & H2 & H3 & H4 & H5 & H6 & H7 & _).
  unfold compose, new_paragraph.
  by rewrite H1, H2, H3, H4, H5, H6, H7.
Qed.

Lemma compose_story (font : string) (data : record)
  (blocks : list Flowable) :
  compose font data = Ok blocks ->
  blocks = story font data /\ Forall accepted (paragraph_texts font data).
Proof.
  unfold paragraph_texts, paragraphs_of, story, accepted. simpl.
  compose_cases; try discriminate.
  intros [= <-]. split; [done|]. by repeat constructor.
Qed.

Lemma compose_raises (font : string) (data : record) (e : exn) :
  compose font data = Raise e ->
  Exists (fun p => paragraph_check p.1 p.2 = Raise e)
         (paragraph_texts font data).
Proof.
  unfold paragraph_texts, paragraphs_of, story. simpl.
  compose_cases; try discriminate; intros [= <-];
    repeat (first [apply Exists_cons_hd; assumption | apply Exists_cons_tl]).
Qed.


(** C5, as the code has it.  In scenario A the lookup of ["INV-1"] returns the
    record with the row's five values, and when the [Paragraph] constructor
    takes its seven texts the composition returns these eleven blocks in this
    order: the title, the number line and a spacer, the table of three rows,
    a spacer, the amount line, the heading, the description, a spacer and the
    two closing lines. *)
Theorem scenario_A_composes_eleven_blocks (font : string) :
  Forall accepted (paragraph_texts font record_A) ->
  get_invoice_data (Frame scenario_A) "INV-1" = Ok record_A /\
  record_A !! "invoice_id" = Some (VStr "INV-1") /\
  record_A !! "customer_name" = Some (VStr "Acme") /\
  record_A !! "date" = Some (VStr "2024-01-01") /\
  record_A !! "amount" = Some (VStr "500") /\
  record_A !! "description" = Some (VStr "Consulting") /\
  size record_A = 5%nat /\
  compose font record_A =
    Ok [ Paragraph (VStr "СЧЕТ-ФАКТУРА") (title_style font);
         Paragraph (VStr "№ INV-1") (normal_style font);
         Spacer 1 20;
         Table [ [VStr "Клиент:"; VStr "Acme"];
                 [VStr "Дата:"; VStr "2024-01-01"];
                 [VStr "Номер счета:"; VStr "INV-1"] ]
               [100; 200]
               [ ALIGN (0, 0) (-1, -1) "LEFT";
                 FONTNAME (0, 0) (-1, -1) font;
                 FONTSIZE (0, 0) (-1, -1) 12;
                 BOTTOMPADDING (0, 0) (-1, -1) 6 ];
         Spacer 1 20;
         Paragraph (VStr "Сумма: 500 ₽") (amount_style font);
         Paragraph (VStr "Описание услуг:") (heading_style font);
         Paragraph (VStr "Consulting") (normal_style font);
         Spacer 1 30;
         Paragraph (VStr "Спасибо за ваш заказ!") (normal_style font);
         Paragraph (VStr "Дата создания: 2024-01-01") (normal_style font) ] /\
  length (story font record_A) = 11%nat.
Proof.
  intros Hacc. rewrite (compose_accepted font record_A Hacc).
  repeat split; reflexivity.
Qed.


(** ** Document renderer *)

(** C7, as the code has it.  [generate_pdf] fails in two ways only: a
    [Paragraph] constructor raises while the story is composed, and then no
    file is touched; or the story is composed and [doc.build] raises on it
    for the template of the requested path, and then the files are exactly as
    the engine left them.  Either way the exception is re-raised unchanged
    after one error line is printed: [generate_pdf] writes nothing itself,
    publishes through no temporary file and cleans nothing up. *)
Theorem generate_pdf_failure (build : Engine) (font : string) (data : record)
  (output_path : string) (w w' : World) (e : exn) :
  generate_pdf build font data output_path w = (w', Raise e) <->
  ((compose font data = Raise e /\ files w' = files w) \/
   (compose font data = Ok (story font data) /\
    build (SimpleDocTemplate output_path) (story font data) (files w)
      = (files w', Raise e))) /\
  stdout w' = (stdout w ++ [msg_render_error e])%list.
Proof.
  unfold generate_pdf, try_catch, mbind, M_bind, doc_build, print, raise,
    lift.
  destruct (compose font data) as [blocks|e0] eqn:Hc; simpl.
  - apply compose_story in Hc as [-> _].
    destruct (build (SimpleDocTemplate output_path) (story font data)
                (files w)) as [fs [[]|e1]]; simpl.
    + split; [discriminate|]. intros [[[[=] _]|[_ [=]]] _].
    + split.
      * intros [= <- <-]. split; [by right | done].
      * intros [[[[=] _]|[_ [= -> ->]]] Hout].
        destruct w' as [fs' out']. simpl in *. by rewrite Hout.
  - split.
    + intros [= <- <-]. split; [by left | done].
    + intros [[[[= ->] Hf]|[[=] _]] Hout].
      destruct w as [fs out], w' as [fs' out']. simpl in *.
      by rewrite Hout, Hf.
Qed.

(** ** Font resolver *)

Lemma try_fonts_find (env : Platform) (paths : list string) :
  try_fonts env paths =
    Ok (match find (registers env) paths with
        | Some font_path => mkFonts "CustomFont" (Some font_path)
        | None => mkFonts "Helvetica" None
        end).
Proof.
  induction paths as [|p rest IH]; simpl; [done|].
  unfold registers at 1.
  destruct (path_exists env p); simpl; [|exact IH].
  destruct (registerFont env p) as [[]|e]; simpl; [done | exact IH].
Qed.

(** C8.  [setup_fonts] always returns: it never raises.  The font it settles
    on is ['CustomFont'], registered from the first candidate path of the
    platform's list whose file exists and registers, and ['Helvetica'] with
    nothing registered when no candidate registers or [platform.system()]
    itself fails; so the font name is one of the two. *)
Theorem setup_fonts_resolves (env : Platform) :
  exists fonts,
    setup_fonts env = Ok fonts /\
    (font_name fonts = "CustomFont" \/ font_name fonts = "Helvetica") /\
    fonts =
      match system env with
      | Ok sys =>
          match find (registers env) (font_paths sys) with
          | Some font_path => mkFonts "CustomFont" (Some font_path)
          | None => mkFonts "Helvetica" None
          end
      | Raise _ => mkFonts "Helvetica" None
      end.
Proof.
  unfold setup_fonts. destruct (system env) as [sys|e]; simpl.
  - rewrite try_fonts_find. simpl. eexists. split; [reflexivity|].
    split; [|reflexivity].
    destruct (find (registers env) (font_paths sys)); simpl; auto.
  - eexists. split; [reflexivity|]. split; [|reflexivity]. simpl; auto.
Qed.

Example setup_fonts_linux_dejavu :
  setup_fonts linux_dejavu =
    Ok (mkFonts "CustomFont"
          (Some "/usr/share/fonts/truetype/dejavu/DejaVuSans.ttf")).
Proof. reflexivity. Qed.

Example setup_fonts_skips_failed_registration :
  setup_fonts windows_broken_arial =
    Ok (mkFonts "CustomFont" (Some "C:/Windows/Fonts/calibri.ttf")).
Proof. reflexivity. Qed.

Example setup_fonts_without_platform :
  setup_fonts (mkPlatform (Raise (OSError "no platform")) (fun _ => true)
                 (fun _ => Ok tt)) = Ok (mkFonts "Helvetica" None).
Proof. reflexivity. Qed.

(** * Further properties of the locator *)

Lemma col_index_lt (name : string) (cols : list string) (i : nat) :
  col_index name cols = Some i -> cols !! i = Some name.
Proof.
  revert i. induction cols as [|c cs IH]; intros i; simpl; [done|].
  destruct (String.eqb_spec c name) as [->|Hne].
  - by intros [= <-].
  - destruct (col_index name cs) as [j|]; simpl; [|done].
    intros [= <-]. by apply IH.
Qed.

Lemma row_dict_from_absent (name : string) (cols : list string)
  (r : list value) (k : nat) :
  col_index name cols = None -> row_dict_from k cols r !! name = None.
Proof.
  revert k. induction cols as [|c cs IH]; intros k; simpl; [done|].
  destruct (String.eqb_spec c name) as [->|Hne]; [done|].
  destruct (col_index name cs) eqn:Hcs; simpl; [done|].
  intros _. rewrite lookup_insert_ne by done. by apply IH.
Qed.

Lemma get_invoice_data_frame_none (df : DataFrame) (s : string) :
  id_column df = None ->
  get_invoice_data (Frame df) s = Raise (KeyError "id").
Proof.
  unfold id_column, get_invoice_data. cbn [as_frame].
  destruct (has_column df "invoice_id"); [done|].
  destruct (has_column df "id") eqn:H2; [done|]. intros _.
  unfold column_as_str. by rewrite (has_column_false _ _ H2).
Qed.

Lemma id_column_none (df : DataFrame) :
  id_column df = None <->
  has_column df "invoice_id" = false /\ has_column df "id" = false.
Proof.
  unfold id_column.
  destruct (has_column df "invoice_id"), (has_column df "id");
    split; try done; by intros [? ?].
Qed.

Lemma column_as_str_index (df : DataFrame) (c : string) (i : nat) :
  col_index c (columns df) = Some i ->
  column_as_str df c = Ok (map (fun r => py_str (cell r i)) (rows df)).
Proof. intros H. unfold column_as_str. by rewrite H. Qed.

Lemma get_invoice_data_frame_ok (df : DataFrame) (c : string) (i : nat)
  (s : string) :
  id_column df = Some c ->
  col_index c (columns df) = Some i ->
  get_invoice_data (Frame df) s =
    Ok (match select_rows (rows df)
                (map (fun r => py_str (cell r i)) (rows df)) s with
        | r :: _ => row_to_dict (columns df) (iloc_row df r)
        | [] => ∅
        end).
Proof.
  intros Hc Hi. rewrite (get_invoice_data_frame df c s Hc).
  rewrite (column_as_str_index df c i Hi). simpl.
  by destruct (select_rows _ _ s).
Qed.

Lemma select_rows_app (pre post : list (list value)) (i : nat) (s : string) :
  select_rows (pre ++ post) (map (fun r => py_str (cell r i)) (pre ++ post)) s
  = (select_rows pre (map (fun r => py_str (cell r i)) pre) s ++
     select_rows post (map (fun r => py_str (cell r i)) post) s)%list.
Proof.
  induction pre as [|r pre IH]; simpl; [done|].
  destruct (String.eqb (py_str (cell r i)) s); simpl; by rewrite IH.
Qed.

Lemma select_rows_none (rs : list (list value)) (i : nat) (s : string) :
  Forall (fun r => py_str (cell r i) <> s) rs ->
  select_rows rs (map (fun r => py_str (cell r i)) rs) s = [].
Proof.
  induction 1 as [|r rs Hne _ IH]; simpl; [done|].
  by destruct (String.eqb_spec (py_str (cell r i)) s).
Qed.

(** X3.  The listing of a data frame is one column read as strings, in row
    order: the ['invoice_id'] column when the frame has one, whether or not it
    also has an ['id'] column, and the ['id'] column only when there is no
    ['invoice_id'] column. *)
Theorem get_invoice_ids_frame_column (df : DataFrame) :
  (forall i, col_index "invoice_id" (columns df) = Some i ->
     get_invoice_ids (Frame df)
       = Ok (map (fun r => py_str (cell r i)) (rows df))) /\
  (forall j, col_index "invoice_id" (columns df) = None ->
     col_index "id" (columns df) = Some j ->
     get_invoice_ids (Frame df)
       = Ok (map (fun r => py_str (cell r j)) (rows df))).
Proof.
  split.
  - intros i Hi. locator_cases. unfold has_column, column_as_str.
    by rewrite Hi.
  - intros j Hnone Hj. locator_cases. unfold has_column, column_as_str.
    by rewrite Hnone, Hj.
Qed.

(** A frame with both identifier columns. *)
Lemma get_invoice_ids_frame_column_witness :
  get_invoice_ids
    (Frame (mkFrame ["id"; "invoice_id"]
              [[VInt 1; VStr "INV-1"]; [VInt 2; VStr "INV-2"]]))
    = Ok ["INV-1"; "INV-2"].
Proof.
  apply (proj1 (get_invoice_ids_frame_column
                  (mkFrame ["id"; "invoice_id"]
                     [[VInt 1; VStr "INV-1"]; [VInt 2; VStr "INV-2"]])) 1%nat).
  reflexivity.
Defined.

(** X4.  A lookup that returns a non-empty mapping returns what the source
    holds under the requested identifier: the mapping of a row whose
    identifier cell reads as that identifier, or a hierarchical record whose
    resolved identifier reads as it.  The locator never hands out a record
    under a wrong identifier, nor a mapping it made up. *)
Theorem get_invoice_data_sound (data : source) (s : string) (r : record) :
  get_invoice_data data s = Ok r ->
  r <> ∅ ->
  found_under data s r.
Proof.
  destruct data as [df|d|l|v]; cbn [found_under].
  - destruct (id_column df) as [c|] eqn:Hc.
    + destruct (id_column_index df c Hc) as [i Hi].
      rewrite (get_invoice_data_frame_ok df c i s Hc Hi).
      destruct (select_rows _ _ s) as [|row sel] eqn:Hsel;
        intros [= <-] Hne; [done|].
      assert (Hrow : row ∈ select_rows (rows df)
        (map (fun r => py_str (cell r i)) (rows df)) s).
      { rewrite Hsel. apply elem_of_cons. by left. }
      apply select_rows_elem in Hrow as [Hin Hid].
      by exists c, i, row.
    + by rewrite (get_invoice_data_frame_none df s Hc).
  - locator_cases. destruct (d !! "invoices") as [invs|]; simpl.
    + destruct (scan_records invs s) as [inv|] eqn:Hscan;
        intros [= <-] Hne; [|done].
      exists invs. split; [done|]. by apply scan_records_Some.
    + by intros [= <-] Hne.
  - locator_cases.
    destruct (scan_records l s) as [inv|] eqn:Hscan;
      intros [= <-] Hne; [|done].
    by apply scan_records_Some.
  - locator_cases. by intros [= <-] Hne.
Qed.

(** X5.  Among several hierarchical records with the requested identifier the
    first in source order is returned; records after it, duplicates included,
    are never looked at.  This holds for the [{"invoices": [...]}] shape and
    for a bare list alike. *)
Theorem get_invoice_data_first_record (d : gmap string (list record))
  (pre post : list record) (r : record) (s : string) :
  d !! "invoices" = Some (pre ++ r :: post)%list ->
  Forall (fun r' => py_str (resolved_id r') <> s) pre ->
  py_str (resolved_id r) = s ->
  get_invoice_data (Dict d) s = Ok r /\
  get_invoice_data (Seq (pre ++ r :: post)) s = Ok r.
Proof.
  intros Hd Hpre Hid. locator_cases.
  by rewrite Hd, (scan_records_first pre r post s Hpre Hid).
Qed.

(** X6.  In a data frame the first row, in row order, whose identifier cell
    reads as the requested string is the one returned, as a mapping from the
    frame's columns to the cells of that row taken out as one series; later
    rows with the same identifier are ignored.  The cells are the row's own
    when the frame has a text column; in a row of whole numbers and floats
    only, the whole numbers come back as floats. *)
Theorem get_invoice_data_first_row (df : DataFrame) (c : string) (i : nat)
  (pre post : list (list value)) (row : list value) (s : string) :
  id_column df = Some c ->
  col_index c (columns df) = Some i ->
  rows df = (pre ++ row :: post)%list ->
  Forall (fun r => py_str (cell r i) <> s) pre ->
  py_str (cell row i) = s ->
  get_invoice_data (Frame df) s
    = Ok (row_to_dict (columns df) (iloc_row df row)) /\
  (forall name j, col_index name (columns df) = Some j ->
     row_to_dict (columns df) (iloc_row df row) !! name =
       Some (match common_dtype (frame_dtypes df), cell row j with
             | float64, VInt z => VFloat (float_repr z)
             | _, v => v
             end)).
Proof.
  intros Hc Hi Hrows Hpre Hid. split.
  - rewrite (get_invoice_data_frame_ok df c i s Hc Hi), Hrows.
    rewrite select_rows_app, (select_rows_none pre i s Hpre). simpl.
    by rewrite Hid, String.eqb_refl.
  - intros name j Hj.
    rewrite (row_to_dict_lookup name _ _ j Hj), cell_iloc_row.
    unfold cast. by destruct (common_dtype (frame_dtypes df)), (cell row j).
Qed.

(** X7.  An identifier that [get_invoice_ids] does not list is not found by
    [get_invoice_data], which returns the empty mapping, except on the two
    shapes where the two functions disagree: a bare list, which is never
    listed, and a data frame without identifier column, where the lookup
    raises. *)
Theorem unlisted_identifier_not_found (data : source) (ids : list string)
  (s : string) :
  get_invoice_ids data = Ok ids ->
  s ∉ ids ->
  get_invoice_data data s = Ok ∅ \/
  (exists l, data = Seq l) \/
  (exists df, data = Frame df /\ id_column df = None).
Proof.
  destruct data as [df|d|l|v].
  - rewrite get_invoice_ids_frame.
    destruct (id_column df) as [c|] eqn:Hc; [|by right; right; exists df].
    destruct (id_column_index df c Hc) as [i Hi].
    rewrite (column_as_str_index df c i Hi). intros [= <-] Hs. left.
    rewrite (get_invoice_data_frame_ok df c i s Hc Hi).
    rewrite select_rows_none; [done|].
    apply Forall_forall. intros r Hr Heq. apply Hs.
    apply list_elem_of_In, in_map_iff. exists r.
    split; [done | by apply list_elem_of_In].
  - locator_cases. destruct (d !! "invoices") as [invs|]; [|by left].
    intros [= <-] Hs. left. rewrite scan_records_None; [done|].
    apply Forall_forall. intros r Hr Heq. apply Hs.
    apply list_elem_of_In, in_map_iff. exists r.
    split; [done | by apply list_elem_of_In].
  - right. left. by exists l.
  - by left.
Qed.

(** X9.  The listing of a [{"invoices": [...]}] document has one entry per
    record, in source order, and the entry of a record is its ['id'] if it has
    one, else its ['invoice_id'] if it has one, else the empty string. *)
Theorem get_invoice_ids_document (d : gmap string (list record))
  (invs : list record) :
  d !! "invoices" = Some invs ->
  exists ids,
    get_invoice_ids (Dict d) = Ok ids /\
    length ids = length invs /\
    forall (i : nat) (inv : record),
      invs !! i = Some inv ->
      ids !! i =
        Some (match inv !! "id", inv !! "invoice_id" with
              | Some v, _ => py_str v
              | None, Some v => py_str v
              | None, None => ""
              end).
Proof.
  intros Hd. eexists. locator_cases. rewrite Hd. split; [done|].
  split; [apply length_map|]. intros i inv Hi.
  change (map ?f invs) with (f <$> invs).
  rewrite list_lookup_fmap, Hi. simpl. f_equal.
  unfold resolved_id, dict_get.
  by destruct (inv !! "id"), (inv !! "invoice_id").
Qed.

Lemma get_invoice_ids_document_witness :
  exists ids,
    get_invoice_ids
      (Dict {[ "invoices" := [ {[ "invoice_id" := VStr "A" ]}; ∅ ] ]}) = Ok ids /\
    length ids = 2%nat /\
    forall (i : nat) (inv : record),
      [ ({[ "invoice_id" := VStr "A" ]} : record); ∅ ] !! i = Some inv ->
      ids !! i =
        Some (match inv !! "id", inv !! "invoice_id" with
              | Some v, _ => py_str v
              | None, Some v => py_str v
              | None, None => ""
              end).
Proof.
  apply (get_invoice_ids_document
           {[ "invoices" := [ {[ "invoice_id" := VStr "A" ]}; ∅ ] ]}
           [ {[ "invoice_id" := VStr "A" ]}; ∅ ]).
  reflexivity.
Defined.

(** * Further properties of the composer and the renderer *)

(** X10.  Every text block of the story names the resolved font and no other:
    the seven paragraphs through their style, and the table through its one
    [FONTNAME] command; the spacers name none. *)
Theorem story_uses_resolved_font (font : string) (data : record) :
  flat_map block_fonts (story font data) = repeat font 8.
Proof. reflexivity. Qed.

(** X11.  The story depends on the record through the five fields
    ['invoice_id'], ['customer_name'], ['date'], ['amount'] and
    ['description'] only: records that agree on them compose to the same
    story, whatever else they hold. *)
Theorem story_reads_five_fields (font : string) (data1 data2 : record) :
  Forall (fun k => data1 !! k = data2 !! k) composed_fields ->
  story font data1 = story font data2.
Proof.
  unfold composed_fields. rewrite !Forall_cons.
  intros (H1 & H2 & H3 & H4 & H5 & _).
  unfold story, info_table, info_data, dict_get.
  by rewrite H1, H2, H3, H4, H5.
Qed.

Lemma story_reads_five_fields_witness :
  story "Helvetica" (<["id" := VInt 17]> record_A)
    = story "Helvetica" record_A.
Proof.
  apply (story_reads_five_fields "Helvetica"
           (<["id" := VInt 17]> record_A) record_A).
  repeat constructor.
Defined.

(** X12.  When the composition returns, a field the record holds is shown
    with its own value: the invoice number in the number line and in the
    table, the customer in the table, the date in the table and in the
    closing line, the amount in the amount line between its label and the
    currency sign, and the description as the text of its paragraph.  Values
    go into the table and the description paragraph as they are, and into the
    other lines through [str]. *)
Theorem composed_story_shows_present_fields (font : string) (data : record)
  (blocks : list Flowable) :
  compose font data = Ok blocks ->
  (forall v, data !! "invoice_id" = Some v ->
     Paragraph (VStr ("№ " ++ py_str v)) (normal_style font) ∈ blocks /\
     [VStr "Номер счета:"; v] ∈ info_data data) /\
  (forall v, data !! "customer_name" = Some v ->
     [VStr "Клиент:"; v] ∈ info_data data) /\
  (forall v, data !! "date" = Some v ->
     [VStr "Дата:"; v] ∈ info_data data /\
     Paragraph (VStr ("Дата создания: " ++ py_str v)) (normal_style font)
       ∈ blocks) /\
  (forall v, data !! "amount" = Some v ->
     Paragraph (VStr ("Сумма: " ++ py_str v ++ " ₽")) (amount_style font)
       ∈ blocks) /\
  (forall v, data !! "description" = Some v ->
     Paragraph v (normal_style font) ∈ blocks) /\
  info_table font data ∈ blocks.
Proof.
  intros Hc. apply compose_story in Hc as [-> _].
  unfold story, info_table, info_data, dict_get.
  repeat apply conj; try (intros v Hv; rewrite Hv; simpl);
    try apply conj; repeat constructor.
Qed.

(** X13.  A hierarchical record that has an ['id'] but no ['invoice_id'] is
    listed and found under its ['id'], yet its document shows no number: the
    composer reads ['invoice_id'] only, so the number line and the number row
    of the table show ["N/A"]. *)
Theorem id_only_record_prints_no_number (font : string) (inv : record)
  (a : value) :
  inv !! "id" = Some a ->
  inv !! "invoice_id" = None ->
  get_invoice_ids (invoices_doc [inv]) = Ok [py_str a] /\
  get_invoice_data (invoices_doc [inv]) (py_str a) = Ok inv /\
  Paragraph (VStr "№ N/A") (normal_style font) ∈ story font inv /\
  [VStr "Номер счета:"; NA] ∈ info_data inv.
Proof.
  intros Ha Hnone.
  assert (Hid : resolved_id inv = a).
  { unfold resolved_id, dict_get. by rewrite Ha. }
  unfold invoices_doc. locator_cases. rewrite lookup_singleton_eq. simpl.
  rewrite Hid, String.eqb_refl.
  split; [done|]. split; [done|].
  unfold story, info_data, dict_get. rewrite Hnone. simpl.
  split; repeat constructor.
Qed.

(** X14.  [generate_pdf] returns exactly when the composition returns and
    [doc.build] returns on the composed story; it then prints the one success
    line, and the files are those the engine left. *)
Theorem generate_pdf_success (build : Engine) (font : string) (data : record)
  (output_path : string) (w w' : World) :
  generate_pdf build font data output_path w = (w', Ok tt) <->
  compose font data = Ok (story font data) /\
  build (SimpleDocTemplate output_path) (story font data) (files w)
    = (files w', Ok tt) /\
  stdout w' = (stdout w ++ [msg_render_ok output_path])%list.
Proof.
  unfold generate_pdf, try_catch, mbind, M_bind, doc_build, print, raise,
    lift, msg_render_ok.
  destruct (compose font data) as [blocks|e0] eqn:Hc; simpl.
  - apply compose_story in Hc as [-> _].
    destruct (build (SimpleDocTemplate output_path) (story font data)
                (files w)) as [fs [[]|e1]]; simpl.
    + split.
      * intros [= <-]. done.
      * intros (_ & [= ->] & Hout). destruct w' as [fs' out']. simpl in *.
        by rewrite Hout.
    + split; [discriminate | intros (_ & [=] & _)].
  - split; [discriminate | intros ([=] & _)].
Qed.

(** * Further properties of the font resolver *)

Lemma find_first {A} (f : A -> bool) (l : list A) (x : A) :
  find f l = Some x ->
  exists before after,
    l = (before ++ x :: after)%list /\
    Forall (fun y => f y = false) before /\
    f x = true.
Proof.
  induction l as [|y l IH]; simpl; [done|].
  destruct (f y) eqn:Hy.
  - intros [= ->]. by exists [], l.
  - intros H. destruct (IH H) as (before & after & -> & Hb & Hx).
    exists (y :: before), after.
    split; [done|]. split; [by constructor | done].
Qed.

(** X15.  [setup_fonts] settles on ['CustomFont'] exactly when it registered
    a font file.  The file it registered is a candidate of this platform's
    list, it exists, [registerFont] returned for it, and no candidate before
    it in the list both exists and registers. *)
Theorem setup_fonts_registered (env : Platform) (fonts : Fonts) :
  setup_fonts env = Ok fonts ->
  (font_name fonts = "CustomFont" <-> registered fonts <> None) /\
  (font_name fonts = "Helvetica" <-> registered fonts = None) /\
  forall font_path, registered fonts = Some font_path ->
    exists sys before after,
      system env = Ok sys /\
      font_paths sys = (before ++ font_path :: after)%list /\
      Forall (fun p => registers env p = false) before /\
      path_exists env font_path = true /\
      registerFont env font_path = Ok tt.
Proof.
  unfold setup_fonts. destruct (system env) as [sys|e] eqn:Hsys; simpl.
  - rewrite try_fonts_find. simpl.
    destruct (find (registers env) (font_paths sys)) as [p|] eqn:Hfind;
      intros [= <-]; simpl.
    + split; [done|]. split; [done|]. intros q [= <-].
      destruct (find_first _ _ _ Hfind) as (before & after & Hl & Hb & Hp).
      exists sys, before, after. unfold registers in Hp.
      apply andb_prop in Hp as [Hex Hreg].
      destruct (registerFont env p) as [[]|]; done.
    + split; [done|]. split; done.
  - intros [= <-]. simpl. split; [done|]. split; done.
Qed.

Lemma setup_fonts_registered_witness :
  let fonts := mkFonts "CustomFont" (Some "C:/Windows/Fonts/calibri.ttf") in
  (font_name fonts = "CustomFont" <-> registered fonts <> None) /\
  (font_name fonts = "Helvetica" <-> registered fonts = None) /\
  forall font_path, registered fonts = Some font_path ->
    exists sys before after,
      system windows_broken_arial = Ok sys /\
      font_paths sys = (before ++ font_path :: after)%list /\
      Forall (fun p => registers windows_broken_arial p = false) before /\
      path_exists windows_broken_arial font_path = true /\
      registerFont windows_broken_arial font_path = Ok tt.
Proof.
  intros fonts.
  apply (setup_fonts_registered windows_broken_arial fonts).
  reflexivity.
Defined.

(** * Further properties of the driver *)

Lemma run_invoice_empty_listing (build : Engine) (viewer : result unit)
  (font : string) (data : source) (i : nat) (w : World) :
  get_invoice_ids data = Ok [] ->
  run_invoice build viewer font data i w =
    (mkWorld (files w) (stdout w ++ [msg_no_ids]), Ok tt).
Proof.
  intros Hids. unfold run_invoice, mbind, M_bind, lift. by rewrite Hids.
Qed.

Lemma run_invoice_bad_choice (build : Engine) (viewer : result unit)
  (font : string) (data : source) (ids : list string) (i : nat) (w : World) :
  get_invoice_ids data = Ok ids -> ids <> [] -> ids !! i = None ->
  run_invoice build viewer font data i w = (w, Raise IndexError).
Proof.
  intros Hids Hne Hi. unfold run_invoice, mbind, M_bind, lift, list_item.
  rewrite Hids, Hi. by rewrite bool_decide_eq_false_2.
Qed.

Lemma run_invoice_not_found (build : Engine) (viewer : result unit)
  (font : string) (data : source) (ids : list string) (i : nat) (s : string)
  (w : World) :
  get_invoice_ids data = Ok ids -> ids <> [] -> ids !! i = Some s ->
  get_invoice_data data s = Ok ∅ ->
  run_invoice build viewer font data i w =
    (mkWorld (files w) (stdout w ++ [msg_selected s; msg_not_found]), Ok tt).
Proof.
  intros Hids Hne Hi Hdata.
  unfold run_invoice, mbind, M_bind, lift, list_item.
  rewrite Hids, Hi. rewrite bool_decide_eq_false_2 by done. simpl.
  rewrite Hdata. rewrite bool_decide_eq_true_2 by done.
  unfold print. simpl. by rewrite <- app_assoc.
Qed.

Lemma run_invoice_render (build : Engine) (viewer : result unit)
  (font : string) (data : source) (ids : list string) (i : nat) (s : string)
  (r : record) (w : World) :
  get_invoice_ids data = Ok ids -> ids <> [] -> ids !! i = Some s ->
  get_invoice_data data s = Ok r -> r <> ∅ ->
  run_invoice build viewer font data i w =
    match compose font r with
    | Raise e =>
        (mkWorld (files w)
           (stdout w ++ [msg_selected s; msg_creating; msg_render_error e]),
         Raise e)
    | Ok blocks =>
        match build (SimpleDocTemplate (pdf_path_of s)) blocks (files w) with
        | (fs, Ok _) =>
            (mkWorld fs
               (stdout w ++ [msg_selected s; msg_creating;
                             msg_render_ok (pdf_path_of s); msg_opening;
                             msg_viewer viewer; msg_done (pdf_path_of s)]),
             Ok tt)
        | (fs, Raise e) =>
            (mkWorld fs
               (stdout w ++ [msg_selected s; msg_creating;
                             msg_render_error e]),
             Raise e)
        end
    end.
Proof.
  intros Hids Hne Hi Hdata Hr.
  unfold run_invoice, mbind, M_bind, lift, list_item.
  rewrite Hids, Hi. rewrite bool_decide_eq_false_2 by done. simpl.
  rewrite Hdata. rewrite bool_decide_eq_false_2 by done.
  unfold generate_pdf, try_catch, mbind, M_bind, doc_build, print, raise,
    lift, open_pdf, pdf_path_of. simpl.
  destruct (compose font r) as [blocks|e]; simpl.
  - destruct (build _ blocks (files w)) as [fs [[]|e]]; simpl.
    + destruct viewer; simpl; by rewrite <- !app_assoc.
    + by rewrite <- !app_assoc.
  - by rewrite <- !app_assoc.
Qed.

Lemma listing_returns (data : source) :
  exists ids, get_invoice_ids data = Ok ids.
Proof.
  destruct data as [df|d|l|v]; [|locator_cases..].
  - rewrite get_invoice_ids_frame.
    destruct (id_column df) as [c|] eqn:Hc; [|by eexists].
    destruct (id_column_index df c Hc) as [i Hi].
    rewrite (column_as_str_index df c i Hi). by eexists.
  - destruct (d !! "invoices"); by eexists.
  - by eexists.
  - by eexists.
Qed.

Lemma lookup_returns_when_listed (data : source) (ids : list string)
  (s : string) :
  get_invoice_ids data = Ok ids -> ids <> [] ->
  exists r, get_invoice_data data s = Ok r.
Proof.
  destruct data as [df|d|l|v]; [|locator_cases..].
  - rewrite get_invoice_ids_frame.
    destruct (id_column df) as [c|] eqn:Hc; [|by intros [= <-]].
    destruct (id_column_index df c Hc) as [i Hi]. intros _ _.
    rewrite (get_invoice_data_frame_ok df c i s Hc Hi). by eexists.
  - intros _ _. destruct (d !! "invoices") as [invs|]; [|by eexists].
    destruct (scan_records invs s); by eexists.
  - by intros [= <-].
  - by intros [= <-].
Qed.

(** X16.  [run] stops with the "no invoice_id" line, renders nothing and
    touches no file whenever the listing is empty.  That is the case for every
    bare list of records, although [get_invoice_data] would find its records,
    and for every data frame without identifier column, which therefore never
    reaches the lookup that would raise. *)
Theorem run_invoice_stops_without_ids (build : Engine) (viewer : result unit)
  (font : string) (data : source) (i : nat) (w : World) :
  get_invoice_ids data = Ok [] \/
  (exists l, data = Seq l) \/
  (exists df, data = Frame df /\ id_column df = None) ->
  run_invoice build viewer font data i w =
    (mkWorld (files w) (stdout w ++ [msg_no_ids]), Ok tt).
Proof.
  intros H. apply run_invoice_empty_listing.
  destruct H as [H|[[l ->]|(df & -> & Hc)]]; [done|by locator_cases|].
  by rewrite get_invoice_ids_frame, Hc.
Qed.

(** X18.  When the selected record is found, composed and built, [run] names
    the file [output/invoice_<identifier>.pdf] after the selected identifier,
    prints the selection, the progress line, the success line of
    [generate_pdf], the viewer's progress line, the line [open_pdf] prints
    (success, or the failure with its cause) and the closing line, in this
    order, and returns; the closing line is printed whether or not the viewer
    could be started. *)
Theorem run_invoice_renders (build : Engine) (viewer : result unit)
  (font : string) (data : source) (ids : list string) (i : nat) (s : string)
  (r : record) (w : World) (fs : gmap string string) :
  get_invoice_ids data = Ok ids ->
  ids !! i = Some s ->
  get_invoice_data data s = Ok r ->
  r <> ∅ ->
  compose font r = Ok (story font r) ->
  build (SimpleDocTemplate (pdf_path_of s)) (story font r) (files w)
    = (fs, Ok tt) ->
  run_invoice build viewer font data i w =
    (mkWorld fs
       (stdout w ++ [msg_selected s; msg_creating;
                     msg_render_ok (pdf_path_of s); msg_opening;
                     msg_viewer viewer; msg_done (pdf_path_of s)]),
     Ok tt).
Proof.
  intros Hids Hi Hr Hr0 Hc Hb.
  assert (Hne : ids <> []) by (by intros ->).
  by rewrite (run_invoice_render _ _ _ _ _ _ _ _ _ Hids Hne Hi Hr Hr0),
    Hc, Hb.
Qed.

(** X19.  When the selected record cannot be rendered, [run] stops there,
    whether a [Paragraph] constructor raised while the story was composed
    (then no file is touched and [doc.build] is not called) or [doc.build]
    raised on the composed story (then the files are as the engine left
    them): the exception leaves [run] unchanged, the error line of
    [generate_pdf] is the last line printed, and neither the viewer lines nor
    the closing line follow, so the viewer is never started on a failed
    render. *)
Theorem run_invoice_render_failure (build : Engine) (viewer : result unit)
  (font : string) (data : source) (ids : list string) (i : nat) (s : string)
  (r : record) (w : World) (fs : gmap string string) (e : exn) :
  get_invoice_ids data = Ok ids ->
  ids !! i = Some s ->
  get_invoice_data data s = Ok r ->
  r <> ∅ ->
  (compose font r = Raise e /\ fs = files w) \/
  (compose font r = Ok (story font r) /\
   build (SimpleDocTemplate (pdf_path_of s)) (story font r) (files w)
     = (fs, Raise e)) ->
  run_invoice build viewer font data i w =
    (mkWorld fs
       (stdout w ++ [msg_selected s; msg_creating; msg_render_error e]),
     Raise e).
Proof.
  intros Hids Hi Hr Hr0 Hcause.
  assert (Hne : ids <> []) by (by intros ->).
  rewrite (run_invoice_render _ _ _ _ _ _ _ _ _ Hids Hne Hi Hr Hr0).
  destruct Hcause as [[Hc ->]|[Hc Hb]]; by rewrite Hc, ?Hb.
Qed.

(** X20.  Lines 287-317 of [run] change the files through one call of
    [doc.build] at most: either the files are untouched, or they are what the
    engine left when asked to build, at [output/invoice_<identifier>.pdf], the
    story of the record found for the identifier chosen from the listing. *)
Theorem run_invoice_files (build : Engine) (viewer : result unit) (font : string)
  (data : source) (i : nat) (w w' : World) (res : result unit) :
  run_invoice build viewer font data i w = (w', res) ->
  files w' = files w \/
  (exists ids s r,
     get_invoice_ids data = Ok ids /\ ids !! i = Some s /\
     get_invoice_data data s = Ok r /\ r <> ∅ /\
     files w' =
       (build (SimpleDocTemplate (pdf_path_of s)) (story font r)
          (files w)).1).
Proof.
  destruct (listing_returns data) as [ids Hids].
  destruct (decide (ids = [])) as [->|Hne].
  { rewrite (run_invoice_empty_listing _ _ _ _ _ _ Hids).
    intros [= <- _]. by left. }
  destruct (ids !! i) as [s|] eqn:Hi.
  - destruct (lookup_returns_when_listed data ids s Hids Hne) as [r Hr].
    destruct (decide (r = ∅)) as [->|Hr0].
    { rewrite (run_invoice_not_found _ _ _ _ _ _ _ _ Hids Hne Hi Hr).
      intros [= <- _]. by left. }
    rewrite (run_invoice_render _ _ _ _ _ _ _ _ _ Hids Hne Hi Hr Hr0).
    destruct (compose font r) as [blocks|e0] eqn:Hc.
    + apply compose_story in Hc as [-> _].
      intros Hrun. right. exists ids, s, r. repeat split; try done.
      destruct (build _ _ (files w)) as [fs [[]|e0]];
        injection Hrun as <- _; done.
    + intros [= <- _]. by left.
  - rewrite (run_invoice_bad_choice _ _ _ _ _ _ _ Hids Hne Hi).
    intros [= <- _]. by left.
Qed.

(** * Properties of the menu *)

Lemma foldl_put_files (lines : list string) (w : World) :
  files (foldl (fun w' line => put line w') w lines) = files w.
Proof.
  revert w. induction lines as [|l ls IH]; intros w; simpl; [done|].
  by rewrite IH.
Qed.

Lemma foldl_put_stdout (lines : list string) (w : World) :
  stdout (foldl (fun w' line => put line w') w lines)
    = (stdout w ++ lines)%list.
Proof.
  revert w. induction lines as [|l ls IH]; intros w; simpl.
  - by rewrite app_nil_r.
  - rewrite IH. simpl. by rewrite <- app_assoc.
Qed.

Lemma ask_chosen (items : list string) (inputs : list entry) (w w' : World)
  (rest : list entry) (i : Z) :
  ask items inputs w = (w', rest, Chosen i) ->
  (0 <= i < Z.of_nat (length items))%Z /\ files w' = files w.
Proof.
  revert w. induction inputs as [|[choice|] inputs IH]; intros w; simpl.
  - discriminate.
  - destruct (1 <=? choice)%Z eqn:H1; simpl.
    + destruct (choice <=? Z.of_nat (length items))%Z eqn:H2.
      * intros [= <- _ <-]. split; [lia | done].
      * intros H. by apply IH in H.
    + intros H. by apply IH in H.
  - intros H. by apply IH in H.
Qed.

Lemma ask_first_accepted (items : list string) (bad rest : list entry)
  (z : Z) (w : World) :
  Forall (rejected items) bad ->
  (1 <= z <= Z.of_nat (length items))%Z ->
  ask items (bad ++ Some z :: rest) w =
    (mkWorld (files w)
       (stdout w ++ flat_map (rejection_lines items) bad
                 ++ [menu_prompt items]),
     rest, Chosen (z - 1)).
Proof.
  intros Hbad Hz. revert w.
  induction Hbad as [|e bad He _ IH]; intros w.
  - simpl.
    replace (1 <=? z)%Z with true by (symmetry; apply Z.leb_le; lia).
    replace (z <=? Z.of_nat (length items))%Z with true
      by (symmetry; apply Z.leb_le; lia).
    done.
  - change ((e :: bad) ++ Some z :: rest)%list
      with (e :: (bad ++ Some z :: rest))%list.
    destruct e as [choice|]; simpl.
    + simpl in He.
      replace ((1 <=? choice) && (choice <=? Z.of_nat (length items)))%Z
        with false.
      2:{ symmetry. apply andb_false_iff.
          destruct He; [left; apply Z.leb_gt | right; apply Z.leb_gt]; lia. }
      rewrite IH. simpl. by rewrite <- !app_assoc.
    + rewrite IH. simpl. by rewrite <- !app_assoc.
Qed.

Lemma ask_nothing_to_choose (inputs : list entry) (w : World) :
  exists w', ask [] inputs w = (w', [], EndOfInput) /\ files w' = files w.
Proof.
  revert w. induction inputs as [|[choice|] inputs IH]; intros w; simpl.
  - by eexists.
  - destruct ((1 <=? choice) && (choice <=? Z.of_nat 0))%Z eqn:Hc.
    { apply andb_prop in Hc as [H1 H2].
      apply Z.leb_le in H1. apply Z.leb_le in H2. lia. }
    destruct (IH (put (msg_out_of_range [])
                    (put (menu_prompt []) w))) as (w' & -> & Hf).
    by exists w'.
  - destruct (IH (put msg_not_a_number (put (menu_prompt []) w)))
      as (w' & -> & Hf).
    by exists w'.
Qed.

(** X21.  When [show_menu] returns, the index it returns is a valid position
    of the items shown, whatever was typed before; and the menu touches no
    file. *)
Theorem show_menu_index_in_range (title : string) (items : list string)
  (inputs rest : list entry) (w w' : World) (i : Z) :
  show_menu title items inputs w = (w', rest, Chosen i) ->
  (0 <= i < Z.of_nat (length items))%Z /\ files w' = files w.
Proof.
  unfold show_menu. intros H. apply ask_chosen in H as [Hi Hf].
  split; [done|]. by rewrite Hf, foldl_put_files.
Qed.

Lemma show_menu_index_in_range_witness :
  (0 <= 1 < Z.of_nat (length ["INV-1"; "INV-2"]))%Z /\
  files (mkWorld ∅ (menu_lines title_invoices ["INV-1"; "INV-2"]
                    ++ rejection_lines ["INV-1"; "INV-2"] (Some 3)
                    ++ rejection_lines ["INV-1"; "INV-2"] None
                    ++ [menu_prompt ["INV-1"; "INV-2"]]))
    = files (mkWorld ∅ []).
Proof.
  apply (show_menu_index_in_range title_invoices ["INV-1"; "INV-2"]
           [Some 3; None; Some 2; Some 1] [Some 1] (mkWorld ∅ []) _ 1).
  reflexivity.
Defined.

(** X22.  A menu without items never returns a choice: every entry is turned
    down, so [show_menu] reads the whole input and ends with the end of the
    input.  [run] shows a menu only after it has checked that the list is not
    empty. *)
Theorem show_menu_without_items (title : string) (inputs : list entry)
  (w : World) :
  exists w', show_menu title [] inputs w = (w', [], EndOfInput) /\
             files w' = files w.
Proof.
  unfold show_menu.
  destruct (ask_nothing_to_choose inputs
              (foldl (fun w' line => put line w') w (menu_lines title [])))
    as (w' & Hask & Hf).
  exists w'. split; [done|]. by rewrite Hf, foldl_put_files.
Qed.

(** X23.  [show_menu] returns for the first entry that is an integer between
    1 and the number of items, and returns that integer less one.  Every
    entry before it is turned down with one complaint, "not a number" or "out
    of range", after its prompt; the entries after it are left unread. *)
Theorem show_menu_first_accepted (title : string) (items : list string)
  (bad rest : list entry) (z : Z) (w : World) :
  Forall (rejected items) bad ->
  (1 <= z <= Z.of_nat (length items))%Z ->
  show_menu title items (bad ++ Some z :: rest) w =
    (mkWorld (files w)
       (stdout w ++ menu_lines title items
                 ++ flat_map (rejection_lines items) bad
                 ++ [menu_prompt items]),
     rest, Chosen (z - 1)).
Proof.
  intros Hbad Hz. unfold show_menu.
  rewrite (ask_first_accepted items bad rest z _ Hbad Hz).
  rewrite foldl_put_files, foldl_put_stdout. by rewrite <- !app_assoc.
Qed.

Lemma show_menu_first_accepted_witness :
  let items := ["INV-1"; "INV-2"] in
  show_menu title_invoices items [Some 0; None; Some 3; Some 2; Some 1]
    (mkWorld ∅ []) =
    (mkWorld ∅
       ([] ++ menu_lines title_invoices items
           ++ flat_map (rejection_lines items) [Some 0; None; Some 3]
           ++ [menu_prompt items]),
     [Some 1], Chosen (2 - 1)).
Proof.
  intros items.
  apply (show_menu_first_accepted title_invoices items
           [Some 0; None; Some 3] [Some 1] 2 (mkWorld ∅ [])).
  - repeat constructor; simpl; lia.
  - simpl. lia.
Defined.

(** X24.  A choice made through [show_menu] over the listing is always a
    position of that listing, so the indexing of line 295 cannot raise; with
    such a choice lines 287-317 of [run] raise only what rendering the
    selected record raises: the exception of a [Paragraph] constructor while
    the story is composed, or the exception of [doc.build] on the composed
    story. *)
Theorem menu_choice_is_safe (build : Engine) (viewer : result unit)
  (font : string) (data : source) (ids : list string)
  (inputs rest : list entry) (w w1 : World) (i : Z) :
  get_invoice_ids data = Ok ids ->
  show_menu title_invoices ids inputs w = (w1, rest, Chosen i) ->
  exists s,
    list_item ids (Z.to_nat i) = Ok s /\
    forall w2 e,
      run_invoice build viewer font data (Z.to_nat i) w1 = (w2, Raise e) ->
      exists r,
        get_invoice_data data s = Ok r /\
        (compose font r = Raise e \/
         exists fs,
           compose font r = Ok (story font r) /\
           build (SimpleDocTemplate (pdf_path_of s)) (story font r) (files w)
             = (fs, Raise e)).
Proof.
  intros Hids Hmenu. unfold show_menu in Hmenu.
  apply ask_chosen in Hmenu as [Hi Hf]. rewrite foldl_put_files in Hf.
  assert (Hne : ids <> []) by (intros ->; simpl in Hi; lia).
  destruct (lookup_lt_is_Some_2 ids (Z.to_nat i)) as [s Hs]; [lia|].
  exists s. unfold list_item. rewrite Hs. split; [done|]. intros w2 e.
  destruct (lookup_returns_when_listed data ids s Hids Hne) as [r Hr].
  destruct (decide (r = ∅)) as [->|Hr0].
  { by rewrite (run_invoice_not_found _ _ _ _ _ _ _ _ Hids Hne Hs Hr). }
  rewrite (run_invoice_render _ _ _ _ _ _ _ _ _ Hids Hne Hs Hr Hr0), Hf.
  destruct (compose font r) as [blocks|e0] eqn:Hc.
  - destruct (compose_story _ _ _ Hc) as [-> _].
    destruct (build _ _ (files w)) as [fs [[]|e1]] eqn:Hb; [done|].
    intros [= _ <-]. exists r. split; [done|]. right. by exists fs.
  - intros [= _ <-]. exists r. split; [done|]. by left.
Qed.

Lemma show_menu_first_accepted_aux (title : string) (items : list string)
  (rest : list entry) (z : Z) (w : World) :
  (1 <= z <= Z.of_nat (length items))%Z ->
  show_menu title items (Some z :: rest) w =
    (mkWorld (files w)
       (stdout w ++ menu_lines title items ++ [menu_prompt items]),
     rest, Chosen (z - 1)).
Proof.
  intros Hz. unfold show_menu.
  rewrite (ask_first_accepted items [] rest z _
             (List.Forall_nil (rejected items)) Hz).
  rewrite foldl_put_files, foldl_put_stdout. simpl.
  by rewrite <- !app_assoc.
Qed.

Lemma item_lines_lookup (items : list string) (i : Z) (k : nat) :
  item_lines i items !! k =
    (fun item => format_2d (i + Z.of_nat k) ++ ". " ++ item) <$> items !! k.
Proof.
  revert i k. induction items as [|item items IH]; intros i k; simpl.
  - by destruct k.
  - destruct k as [|k]; simpl.
    + by rewrite Z.add_0_r.
    + rewrite IH. replace (i + 1 + Z.of_nat k)%Z with (i + Z.of_nat (S k))%Z
        by lia. done.
Qed.

(** X25.  The number shown beside an item selects that item: the item at
    position [k] is printed on the line numbered [k + 1], after the three
    heading lines, and typing [k + 1] makes [show_menu] return [k] at
    once. *)
Theorem show_menu_number_selects_item (title : string) (items : list string)
  (k : nat) (item : string) (rest : list entry) (w : World) :
  items !! k = Some item ->
  menu_lines title items !! (3 + k)%nat
    = Some (format_2d (Z.of_nat k + 1) ++ ". " ++ item) /\
  show_menu title items (Some (Z.of_nat k + 1) :: rest) w =
    (mkWorld (files w)
       (stdout w ++ menu_lines title items ++ [menu_prompt items]),
     rest, Chosen (Z.of_nat k)).
Proof.
  intros Hk. split.
  - unfold menu_lines. change (3 + k)%nat with (S (S (S k))). simpl.
    rewrite item_lines_lookup, Hk. simpl. do 3 f_equal. lia.
  - pose proof (lookup_lt_Some _ _ _ Hk) as Hlt.
    rewrite (show_menu_first_accepted_aux title items rest (Z.of_nat k + 1) w)
      by lia.
    do 2 f_equal. lia.
Qed.

Lemma show_menu_number_selects_item_witness :
  let items := ["INV-1"; "INV-2"] in
  menu_lines title_invoices items !! (3 + 1)%nat
    = Some (format_2d (Z.of_nat 1 + 1) ++ ". " ++ "INV-2") /\
  show_menu title_invoices items (Some (Z.of_nat 1 + 1) :: []) (mkWorld ∅ []) =
    (mkWorld ∅ ([] ++ menu_lines title_invoices items ++ [menu_prompt items]),
     [], Chosen (Z.of_nat 1)).
Proof.
  intros items.
  apply (show_menu_number_selects_item title_invoices items 1 "INV-2" []
           (mkWorld ∅ [])).
  reflexivity.
Defined.

End Generator.

(** * Instances

    The properties above hold for every [Paragraph] constructor and every
    float printer.  Here they are applied with the constructor
    [strings_only] and the printer [whole_float_repr]. *)

Lemma get_invoice_data_without_id_columns_witness :
  get_invoice_ids (Frame names_only) = Ok [] /\
  get_invoice_data whole_float_repr (Frame names_only) "1"
    = Raise (KeyError "id").
Proof.
  apply (get_invoice_data_without_id_columns whole_float_repr names_only "1");
    reflexivity.
Defined.

Lemma resolved_id_takes_id_first_witness :
  let inv : record := <["id" := VStr "X"]> {[ "invoice_id" := VStr "Y" ]} in
  resolved_id inv = VStr "X" /\
  get_invoice_ids (invoices_doc [inv]) = Ok ["X"] /\
  get_invoice_data whole_float_repr (invoices_doc [inv]) "X" = Ok inv /\
  get_invoice_data whole_float_repr (invoices_doc [inv]) "Y" = Ok ∅.
Proof.
  intros inv.
  apply (resolved_id_takes_id_first whole_float_repr inv (VStr "X") (VStr "Y"));
    [reflexivity | reflexivity | discriminate].
Defined.

Lemma listed_identifier_is_found_witness :
  exists r,
    get_invoice_data whole_float_repr (Frame numeric_frame) "7" = Ok r /\
    found_under whole_float_repr (Frame numeric_frame) "7" r /\
    (r <> ∅ \/ ("7" = "" /\ exists d, Frame numeric_frame = Dict d)).
Proof.
  apply (listed_identifier_is_found whole_float_repr (Frame numeric_frame)
           ["7"; "8"] "7").
  - reflexivity.
  - apply elem_of_cons. by left.
Defined.

(** C9, counterexample.  The document [{"invoices": [{}]}] lists the
    identifier [""], and looking [""] up returns the empty mapping, which is
    the value returned when nothing is found. *)
Lemma listed_empty_record_is_not_found :
  get_invoice_ids (invoices_doc [∅]) = Ok [""] /\
  get_invoice_data whole_float_repr (invoices_doc [∅]) "" = Ok ∅ /\
  get_invoice_data whole_float_repr (Other VNone) "" = Ok ∅.
Proof. split; [reflexivity|]. split; reflexivity. Qed.



Lemma scenario_A_composes_eleven_blocks_witness :
  get_invoice_data whole_float_repr (Frame scenario_A) "INV-1" = Ok record_A /\
  compose strings_only "Helvetica" record_A
    = Ok (story "Helvetica" record_A) /\
  length (story "Helvetica" record_A) = 11%nat.
Proof.
  destruct (scenario_A_composes_eleven_blocks whole_float_repr strings_only
              "Helvetica") as (Hdata & _ & _ & _ & _ & _ & _ & Hblocks & Hlen).
  - repeat constructor.
  - split; [exact Hdata|]. split; [exact Hblocks | exact Hlen].
Defined.

(** C5, counterexample.  The record of scenario A does not compose to 9
    blocks. *)
Lemma scenario_A_is_not_nine_blocks :
  get_invoice_data whole_float_repr (Frame scenario_A) "INV-1" = Ok record_A /\
  compose strings_only "Helvetica" record_A
    = Ok (story "Helvetica" record_A) /\
  length (story "Helvetica" record_A) <> 9%nat.
Proof. split; [reflexivity|]. split; [reflexivity | discriminate]. Qed.



Lemma generate_pdf_failure_witness :
  let w := mkWorld {[ "output/invoice_INV-2.pdf" := "%PDF-1.4 previous" ]} [] in
  let e := LayoutError "Flowable too large" in
  let w' := mkWorld (files w) [msg_render_error e] in
  ((compose strings_only "Helvetica" partial_record = Raise e /\
    files w' = files w) \/
   (compose strings_only "Helvetica" partial_record
      = Ok (story "Helvetica" partial_record) /\
    rejecting_engine (SimpleDocTemplate "output/invoice_INV-2.pdf")
      (story "Helvetica" partial_record) (files w) = (files w', Raise e))) /\
  stdout w' = (stdout w ++ [msg_render_error e])%list.
Proof.
  intros w e w'.
  apply (proj1 (generate_pdf_failure strings_only rejecting_engine
                  "Helvetica" partial_record "output/invoice_INV-2.pdf"
                  w w' e)).
  reflexivity.
Defined.

(** C7, counterexample.  With an engine that truncates the destination and
    then fails, [generate_pdf] fails and leaves the truncated file at the
    final path: the destination existed before, and afterwards it is neither
    absent nor unchanged. *)
Lemma generate_pdf_leaves_truncated_file :
  let path := "output/invoice_INV-2.pdf" in
  let w := mkWorld {[ path := "%PDF-1.4 previous" ]} [] in
  exists w' e,
    generate_pdf strings_only truncating_engine "Helvetica" partial_record
      path w = (w', Raise e) /\
    files w !! path = Some "%PDF-1.4 previous" /\
    files w' !! path = Some "" /\
    files w' !! path <> None /\
    files w' !! path <> files w !! path.
Proof.
  intros path w. eexists _, _. split; [reflexivity|].
  split; [reflexivity|]. split; [reflexivity|]. split; discriminate.
Qed.

(** The all-numeric frame of identifiers and float amounts: the identifier
    listed as ["7"] comes back as the float [7.0]. *)
Example numeric_row_comes_back_as_floats :
  get_invoice_ids (Frame numeric_frame) = Ok ["7"; "8"] /\
  get_invoice_data whole_float_repr (Frame numeric_frame) "7"
    = Ok (<["invoice_id" := VFloat "7.0"]> {[ "amount" := VFloat "1.5" ]}).
Proof. split; reflexivity. Qed.

Lemma get_invoice_data_sound_witness :
  found_under whole_float_repr (Frame scenario_A) "INV-1" record_A.
Proof.
  apply (get_invoice_data_sound whole_float_repr (Frame scenario_A) "INV-1"
           record_A).
  - reflexivity.
  - apply insert_non_empty.
Defined.

Lemma get_invoice_data_first_record_witness :
  let first : record := <["id" := VInt 7]> {[ "amount" := VStr "10" ]} in
  let second : record := <["id" := VStr "7"]> {[ "amount" := VStr "99" ]} in
  let other : record := {[ "id" := VStr "6" ]} in
  get_invoice_data whole_float_repr
    (Dict {[ "invoices" := [other; first; second] ]}) "7" = Ok first /\
  get_invoice_data whole_float_repr (Seq [other; first; second]) "7"
    = Ok first.
Proof.
  intros first second other.
  apply (get_invoice_data_first_record whole_float_repr
           {[ "invoices" := [other; first; second] ]}
           [other] [second] first "7").
  - reflexivity.
  - constructor; [discriminate | constructor].
  - reflexivity.
Defined.

Lemma get_invoice_data_first_row_witness :
  get_invoice_data whole_float_repr (Frame numeric_frame) "8"
    = Ok (row_to_dict (columns numeric_frame)
            (iloc_row whole_float_repr numeric_frame
               [VInt 8; VFloat "20.0"])) /\
  row_to_dict (columns numeric_frame)
    (iloc_row whole_float_repr numeric_frame [VInt 8; VFloat "20.0"])
    !! "invoice_id" = Some (VFloat "8.0").
Proof.
  destruct (get_invoice_data_first_row whole_float_repr numeric_frame
              "invoice_id" 0 [[VInt 7; VFloat "1.5"]] []
              [VInt 8; VFloat "20.0"] "8") as [Hrow Hcells].
  - reflexivity.
  - reflexivity.
  - reflexivity.
  - constructor; [discriminate | constructor].
  - reflexivity.
  - split; [exact Hrow | exact (Hcells "invoice_id" 0%nat eq_refl)].
Defined.

Lemma unlisted_identifier_not_found_witness :
  get_invoice_data whole_float_repr (Frame scenario_A) "INV-9" = Ok ∅ \/
  (exists l, Frame scenario_A = Seq l) \/
  (exists df, Frame scenario_A = Frame df /\ id_column df = None).
Proof.
  apply (unlisted_identifier_not_found whole_float_repr (Frame scenario_A)
           ["INV-1"] "INV-9").
  - reflexivity.
  - intros [H|H]%elem_of_cons; [discriminate | by apply elem_of_nil in H].
Defined.

Lemma composed_story_shows_present_fields_witness :
  Paragraph (VStr "Сумма: 500 ₽") (amount_style "Helvetica")
    ∈ story "Helvetica" record_A /\
  Paragraph (VStr "Consulting") (normal_style "Helvetica")
    ∈ story "Helvetica" record_A.
Proof.
  destruct (composed_story_shows_present_fields strings_only "Helvetica"
              record_A (story "Helvetica" record_A))
    as (_ & _ & _ & Hamount & Hdescription & _).
  - reflexivity.
  - split; [apply (Hamount (VStr "500"))
           | apply (Hdescription (VStr "Consulting"))]; reflexivity.
Defined.

Lemma id_only_record_prints_no_number_witness :
  let inv : record := <["id" := VStr "X1"]> {[ "amount" := VStr "10" ]} in
  get_invoice_ids (invoices_doc [inv]) = Ok ["X1"] /\
  get_invoice_data whole_float_repr (invoices_doc [inv]) "X1" = Ok inv /\
  Paragraph (VStr "№ N/A") (normal_style "Helvetica")
    ∈ story "Helvetica" inv /\
  [VStr "Номер счета:"; NA] ∈ info_data inv.
Proof.
  intros inv.
  apply (id_only_record_prints_no_number whole_float_repr "Helvetica" inv
           (VStr "X1")); reflexivity.
Defined.

Lemma generate_pdf_success_witness :
  let path := "output/invoice_INV-1.pdf" in
  let w := mkWorld ∅ [] in
  let w' := mkWorld {[ path := "%PDF-1.4 complete" ]} [msg_render_ok path] in
  generate_pdf strings_only writing_engine "Helvetica" record_A path w
    = (w', Ok tt).
Proof.
  intros path w w'.
  apply (proj2 (generate_pdf_success strings_only writing_engine "Helvetica"
                  record_A path w w')).
  split; [reflexivity|]. split; reflexivity.
Defined.

Lemma run_invoice_stops_without_ids_witness :
  let data := Seq [ {[ "id" := VStr "a" ]} ] in
  let w := mkWorld ∅ [] in
  get_invoice_data whole_float_repr data "a" = Ok {[ "id" := VStr "a" ]} /\
  run_invoice whole_float_repr strings_only writing_engine (Ok tt)
    "Helvetica" data 0 w =
    (mkWorld (files w) (stdout w ++ [msg_no_ids]), Ok tt).
Proof.
  intros data w. split; [reflexivity|].
  apply (run_invoice_stops_without_ids whole_float_repr strings_only
           writing_engine (Ok tt) "Helvetica" data 0 w).
  right. left. by eexists.
Defined.

Lemma run_invoice_renders_witness :
  let w := mkWorld ∅ [] in
  let viewer : result unit := Raise (OSError "xdg-open: not found") in
  run_invoice whole_float_repr strings_only writing_engine viewer
    "Helvetica" (Frame scenario_A) 0 w =
    (mkWorld {[ pdf_path_of "INV-1" := "%PDF-1.4 complete" ]}
       (stdout w ++ [msg_selected "INV-1"; msg_creating;
                     msg_render_ok (pdf_path_of "INV-1"); msg_opening;
                     msg_viewer viewer; msg_done (pdf_path_of "INV-1")]),
     Ok tt).
Proof.
  intros w viewer.
  apply (run_invoice_renders whole_float_repr strings_only writing_engine
           viewer "Helvetica" (Frame scenario_A) ["INV-1"] 0 "INV-1"
           record_A w).
  - reflexivity.
  - reflexivity.
  - reflexivity.
  - apply insert_non_empty.
  - reflexivity.
  - reflexivity.
Defined.

Lemma run_invoice_render_failure_witness :
  let w := mkWorld ∅ [] in
  let e := AttributeError "text has no attribute 'split'" in
  run_invoice whole_float_repr strings_only writing_engine (Ok tt)
    "Helvetica" (Frame empty_description_frame) 0 w =
    (mkWorld (files w)
       (stdout w ++ [msg_selected "INV-3"; msg_creating; msg_render_error e]),
     Raise e).
Proof.
  intros w e.
  apply (run_invoice_render_failure whole_float_repr strings_only
           writing_engine (Ok tt) "Helvetica" (Frame empty_description_frame)
           ["INV-3"] 0 "INV-3" no_description_cell w (files w) e).
  - reflexivity.
  - reflexivity.
  - reflexivity.
  - apply insert_non_empty.
  - left. split; reflexivity.
Defined.

Lemma run_invoice_files_witness :
  let w := mkWorld ∅ [] in
  let w' := mkWorld ∅ [msg_selected "INV-1"; msg_creating;
                       msg_render_error (LayoutError "Flowable too large")] in
  files w' = files w \/
  (exists ids s r,
     get_invoice_ids (Frame scenario_A) = Ok ids /\ ids !! 0%nat = Some s /\
     get_invoice_data whole_float_repr (Frame scenario_A) s = Ok r /\
     r <> ∅ /\
     files w' =
       (rejecting_engine (SimpleDocTemplate (pdf_path_of s))
          (story "Helvetica" r) (files w)).1).
Proof.
  intros w w'.
  apply (run_invoice_files whole_float_repr strings_only rejecting_engine
           (Ok tt) "Helvetica" (Frame scenario_A) 0 w w'
           (Raise (LayoutError "Flowable too large"))).
  reflexivity.
Defined.

Lemma menu_choice_is_safe_witness :
  let w := mkWorld ∅ [] in
  exists s,
    list_item ["INV-3"] (Z.to_nat 0) = Ok s /\
    forall w2 e,
      run_invoice whole_float_repr strings_only rejecting_engine (Ok tt)
        "Helvetica" (Frame empty_description_frame) (Z.to_nat 0)
        (mkWorld ∅ (menu_lines title_invoices ["INV-3"]
                    ++ rejection_lines ["INV-3"] (Some 2)
                    ++ [menu_prompt ["INV-3"]])) = (w2, Raise e) ->
      exists r,
        get_invoice_data whole_float_repr (Frame empty_description_frame) s
          = Ok r /\
        (compose strings_only "Helvetica" r = Raise e \/
         exists fs,
           compose strings_only "Helvetica" r = Ok (story "Helvetica" r) /\
           rejecting_engine (SimpleDocTemplate (pdf_path_of s))
             (story "Helvetica" r) (files w) = (fs, Raise e)).
Proof.
  intros w.
  apply (menu_choice_is_safe whole_float_repr strings_only rejecting_engine
           (Ok tt) "Helvetica" (Frame empty_description_frame) ["INV-3"]
           [Some 2; Some 1] [] w _ 0).
  - reflexivity.
  - reflexivity.
Defined.
